(** * MLPipeline: the pipeline assembler and its data carriers

  A shallow embedding of [MLPipeline/consumable.py] and
  [MLPipeline/pipeline_builder.py], with the collaborators those two files
  import ([pipeline], [pipeline_task], [utils]) either taken as section
  variables or modelled from the design document. *)

From stdpp Require Import base option list strings gmap.

Set Warnings "-register-all".
Open Scope string_scope.
Open Scope list_scope.

(** ** Python values and exceptions *)

Module py.

(** What the YAML loader hands to the builder: a tree of strings, lists and
    mappings.  A mapping keeps its insertion order, as a Python [dict]
    does; a well-formed one has no repeated key.  A string is the sequence
    of its characters, one [ascii] each. *)
Inductive tree : Type :=
| Str (s : string)
| Seq (l : list tree)
| Map (m : list (string * tree)).

(** The exceptions that can leave the modelled code: the builder's own
    [PipelineParsingError], the interpreter's errors for ill-typed trees,
    and the error kinds of the design document's taxonomy. *)
Inductive exn : Type :=
| PipelineParsingError (message : string)
| AttributeError (message : string)
| TypeError (message : string)
| KeyError (key : string)
| IndexError (message : string)
| InvalidTaskDefinition (field : string)
| DuplicateOutputDefinition (full_name : string)
| UnresolvedReference (task ref : string)
| CyclicDependency (task : string)
| UnknownRunnerType (type_key : string)
| RunnerExecutionError (task cause : string)
| MissingExpectedOutput (output : string).

(** Exceptions propagate through a sequence of calls. *)
#[global] Instance exn_ret : MRet (sum exn) := λ A a, inr a.

#[global] Instance exn_bind : MBind (sum exn) := λ A B f r,
  match r with
  | inl e => inl e
  | inr a => f a
  end.

(** [for x in xs: check(x)], stopping at the first exception. *)
Fixpoint try_each {A : Type} (check : A → exn + unit) (xs : list A) : exn + unit :=
  match xs with
  | [] => inr tt
  | x :: xs' => check x;; try_each check xs'
  end.

Definition type_name (t : tree) : string :=
  match t with Str _ => "str" | Seq _ => "list" | Map _ => "dict" end.

(** [bool(t)]: empty strings and empty containers are falsy. *)
Definition truthy (t : tree) : bool :=
  match t with
  | Str s => negb (String.eqb s "")
  | Seq l => negb (Nat.eqb (length l) 0)
  | Map m => negb (Nat.eqb (length m) 0)
  end.

(** [bool(d.get(k))]: [None] is falsy. *)
Definition truthy_opt (o : option tree) : bool :=
  match o with Some t => truthy t | None => false end.

(** [len(t)] *)
Definition len (t : tree) : nat :=
  match t with
  | Str s => String.length s
  | Seq l => length l
  | Map m => length m
  end.

Fixpoint chars (s : string) : list tree :=
  match s with
  | EmptyString => []
  | String a s' => Str (String a EmptyString) :: chars s'
  end.

(** [for x in t]: a list yields its items, a mapping its keys, a string
    its characters. *)
Definition iter (t : tree) : list tree :=
  match t with
  | Str s => chars s
  | Seq l => l
  | Map m => map (λ kv, Str kv.1) m
  end.

Fixpoint lookup (k : string) (m : list (string * tree)) : option tree :=
  match m with
  | [] => None
  | (k', v) :: m' => if String.eqb k k' then Some v else lookup k m'
  end.

Definition no_attribute (t : tree) (attr : string) : exn :=
  AttributeError ("'" +:+ type_name t +:+ "' object has no attribute '" +:+ attr +:+ "'").

(** [t.get(k)] *)
Definition get (t : tree) (k : string) : exn + option tree :=
  match t with
  | Map m => inr (lookup k m)
  | _ => inl (no_attribute t "get")
  end.

(** [list(t.keys())] *)
Definition keys (t : tree) : exn + list string :=
  match t with
  | Map m => inr (map fst m)
  | _ => inl (no_attribute t "keys")
  end.

(** [t[k]] for a string [k] *)
Definition getitem (t : tree) (k : string) : exn + tree :=
  match t with
  | Map m => match lookup k m with Some v => inr v | None => inl (KeyError k) end
  | Str _ => inl (TypeError "string indices must be integers")
  | Seq _ => inl (TypeError "list indices must be integers or slices, not str")
  end.

(** [hash(t)], as dictionary and set membership need it: only strings are
    hashable. *)
Definition hashable (t : tree) : exn + string :=
  match t with
  | Str s => inr s
  | _ => inl (TypeError ("unhashable type: '" +:+ type_name t +:+ "'"))
  end.

(** [**t] in a call: the keyword arguments a mapping unpacks to. *)
Definition kwargs (t : tree) : exn + list (string * tree) :=
  match t with
  | Map m => inr m
  | _ => inl (TypeError ("argument after ** must be a mapping, not " +:+ type_name t))
  end.

(** [l[0]] *)
Definition first (l : list string) : exn + string :=
  match l with
  | k :: _ => inr k
  | [] => inl (IndexError "list index out of range")
  end.

End py.

(** ** consumable.py *)

Module consumable.
Import py.

Record Consumable : Type := mkConsumable {
  content : string;
  name : string;
  parent_task_name : string
}.

(** [Consumable(name, content, parent_task_name='')]: the body only
    assigns the three attributes. *)
Definition __init__ (name content : string) (parent_task_name : option string)
  : exn + Consumable :=
  inr {| content := content;
         name := name;
         parent_task_name := default "" parent_task_name |}.

(** The [full_name] property. *)
Definition full_name (self : Consumable) : string :=
  if truthy (Str (parent_task_name self))
  then parent_task_name self +:+ "." +:+ name self
  else name self.

(** Attribute assignment on an existing object. *)
Definition set_name (v : string) (self : Consumable) : Consumable :=
  {| content := content self; name := v; parent_task_name := parent_task_name self |}.

Definition set_parent_task_name (v : string) (self : Consumable) : Consumable :=
  {| content := content self; name := name self; parent_task_name := v |}.

End consumable.

(** ** Effects of the builder

    A run of the builder prints, calls the task factory and constructs
    Consumables before it returns or raises.  A computation is the log of
    those effects together with its outcome. *)

Module effects.
Import py.

Inductive event : Type :=
| Printed (line : string)
| Spawned (c_name : string) (kwargs : list (string * tree))
| Constructed (c : consumable.Consumable)
| Executed (task : string).

Definition M (A : Type) : Type := (list event * (exn + A))%type.

#[global] Instance M_ret : MRet M := λ A a, ([], inr a).

#[global] Instance M_bind : MBind M := λ A B f m,
  match m with
  | (log, inl e) => (log, inl e)
  | (log, inr a) => let '(log', r) := f a in (log ++ log', r)
  end.

Definition raise {A : Type} (e : exn) : M A := ([], inl e).

Definition emit (ev : event) : M unit := ([ev], inr tt).

(** A call that has no effect of its own but may raise. *)
Definition lift {A : Type} (r : exn + A) : M A := ([], r).

Definition log {A : Type} (m : M A) : list event := m.1.

Definition outcome {A : Type} (m : M A) : exn + A := m.2.

(** [for x in xs: s = body(x, s)] *)
Fixpoint for_each {A S : Type} (xs : list A) (body : A → S → M S) (s : S) : M S :=
  match xs with
  | [] => mret s
  | x :: xs' => s' ← body x s; for_each xs' body s'
  end.

Definition is_spawn (ev : event) : bool :=
  match ev with Spawned _ _ => true | _ => false end.

Definition is_print (ev : event) : bool :=
  match ev with Printed _ => true | _ => false end.

(** The names the task factory was called with, in call order. *)
Fixpoint spawned (l : list event) : list string :=
  match l with
  | [] => []
  | Spawned n _ :: l' => n :: spawned l'
  | _ :: l' => spawned l'
  end.

(** The Consumables constructed, in construction order. *)
Fixpoint constructed (l : list event) : list consumable.Consumable :=
  match l with
  | [] => []
  | Constructed c :: l' => c :: constructed l'
  | _ :: l' => constructed l'
  end.

End effects.

(** ** utils.py *)

Module utils.

(** Modelled from the spec: [utils.is_subset_of] is not among the sources.
    Section 6 calls the keys listed at its two call sites required, so the
    call answers whether every element of the first list occurs in the
    second. *)
Definition is_subset_of (required present : list string) : bool :=
  forallb (λ k, bool_decide (k ∈ present)) required.

End utils.

(** ** pipeline_task.py *)

Module pipeline_task.
Import py.

(** Modelled from the spec: the task class is not among the sources.
    Section 3 gives a Task a name, a runner type, input references (from a
    parameter name to the full name it depends on) and declared outputs. *)
Record Task : Type := mkTask {
  name : string;
  runner_type : string;
  input_refs : list (string * string);
  declared_outputs : list string
}.

(** Modelled from the spec: a mapping whose values are non-empty reference
    strings (section 4.3). *)
Definition as_refs (t : tree) : option (list (string * string)) :=
  match t with
  | Map m =>
      mapM (λ kv, match kv.2 with
                  | Str s => if truthy (Str s) then Some (kv.1, s) else None
                  | _ => None
                  end) m
  | _ => None
  end.

(** Modelled from the spec: a sequence of names (section 4.3). *)
Definition as_names (t : tree) : option (list string) :=
  match t with
  | Seq l => mapM (λ x, match x with Str s => Some s | _ => None end) l
  | _ => None
  end.

(** Modelled from the spec: [TaskFactory.spawn_task] is not among the
    sources.  Section 4.3: the runner type is a key whose lookup waits for
    execution time, the inputs are a mapping whose values are non-empty
    reference strings, the outputs are a non-empty sequence of unique names;
    otherwise [InvalidTaskDefinition] names the field. *)
Definition spawn_task (task_name : string) (kw : list (string * tree)) : exn + Task :=
  match lookup "runner" kw with
  | Some (Str runner) =>
      match lookup "inputs" kw ≫= as_refs with
      | Some refs =>
          match lookup "outputs" kw ≫= as_names with
          | Some outs =>
              if bool_decide (outs ≠ [] ∧ NoDup outs)
              then inr (mkTask task_name runner refs outs)
              else inl (InvalidTaskDefinition "outputs")
          | None => inl (InvalidTaskDefinition "outputs")
          end
      | None => inl (InvalidTaskDefinition "inputs")
      end
  | _ => inl (InvalidTaskDefinition "runner")
  end.

End pipeline_task.

(** ** pipeline.py *)

Module pipeline.
Import py.

(** Modelled from the spec: the [Pipeline] class is not among the sources.
    Section 3 gives it a name, the tasks as an ordered sequence in insertion
    order, the external inputs as a mapping from name to Consumable, and
    the expected outputs as a set of names.  The set is kept as the
    sequence of [add_output] calls, so that a repeated call would show. *)
Record Pipeline (Task : Type) : Type := mkPipeline {
  name : tree;
  tasks : list Task;
  external_inputs : gmap string consumable.Consumable;
  expected_outputs : list string
}.

Arguments mkPipeline {Task}.
Arguments name {Task}.
Arguments tasks {Task}.
Arguments external_inputs {Task}.
Arguments expected_outputs {Task}.

(** Modelled from the spec: [Pipeline(name)], a pipeline with no task, no
    input and no expected output yet. *)
Definition __init__ {Task : Type} (name : tree) : Pipeline Task :=
  mkPipeline name [] ∅ [].

(** Modelled from the spec: [Pipeline.add_task] appends to the task
    sequence (section 3: insertion order). *)
Definition add_task {Task : Type} (t : Task) (self : Pipeline Task) : Pipeline Task :=
  mkPipeline (name self) (tasks self ++ [t]) (external_inputs self) (expected_outputs self).

(** Modelled from the spec: [Pipeline.add_input] files the Consumable under
    its name (section 3: mapping name to Consumable). *)
Definition add_input {Task : Type} (c : consumable.Consumable) (self : Pipeline Task)
  : Pipeline Task :=
  mkPipeline (name self) (tasks self)
    (<[consumable.name c := c]> (external_inputs self)) (expected_outputs self).

(** Modelled from the spec: [Pipeline.add_output] records one more expected
    output name; putting [o] into a set of names hashes it. *)
Definition add_output {Task : Type} (o : tree) (self : Pipeline Task)
  : exn + Pipeline Task :=
  match hashable o with
  | inl e => inl e
  | inr s =>
      inr (mkPipeline (name self) (tasks self) (external_inputs self)
             (expected_outputs self ++ [s]))
  end.

(** Modelled from the spec: [o in pipeline.expected_outputs], membership in
    a set of names, which hashes [o]. *)
Definition expects {Task : Type} (o : tree) (self : Pipeline Task) : exn + bool :=
  match hashable o with
  | inl e => inl e
  | inr s => inr (bool_decide (s ∈ expected_outputs self))
  end.

(** *** Graph resolution and execution *)

(** Modelled from the spec: the producing identity of a full name, external
    or a task name (section 4.4, step 1). *)
Inductive producer : Type :=
| External
| ByTask (task : string).

(** Modelled from the spec: the full name under which a task's declared
    output is known, [task_name.output_name] (sections 3 and 4.5). *)
Definition produced_name (t : pipeline_task.Task) (o : string) : string :=
  consumable.full_name (consumable.mkConsumable "" o (pipeline_task.name t)).

(** Modelled from the spec: every full name with its producing identity
    (section 4.4, step 1): the external inputs, then each task's declared
    outputs in declaration order. *)
Definition producers (self : Pipeline pipeline_task.Task) : list (string * producer) :=
  map (λ kc, (consumable.full_name kc.2, External)) (map_to_list (external_inputs self))
  ++ flat_map (λ t, map (λ o, (produced_name t o, ByTask (pipeline_task.name t)))
                      (pipeline_task.declared_outputs t))
       (tasks self).

(** The inputs of [x] reference an output of [y]. *)
Definition references (x y : pipeline_task.Task) : Prop :=
  ∃ (param o : string),
    (param, produced_name y o) ∈ pipeline_task.input_refs x
    ∧ o ∈ pipeline_task.declared_outputs y.

(** Modelled from the spec: step 1 of section 4.4, the lookup table, with
    [DuplicateOutputDefinition] when two producers claim one full name. *)
Fixpoint build_table (entries : list (string * producer)) (table : gmap string producer)
  : exn + gmap string producer :=
  match entries with
  | [] => inr table
  | (fn, p) :: entries' =>
      match table !! fn with
      | Some _ => inl (DuplicateOutputDefinition fn)
      | None => build_table entries' (<[fn := p]> table)
      end
  end.

(** Modelled from the spec: step 2 of section 4.4 for one reference of one
    task. *)
Definition check_ref (table : gmap string producer) (t : pipeline_task.Task)
    (ref : string) : exn + unit :=
  match table !! ref with
  | None => inl (UnresolvedReference (pipeline_task.name t) ref)
  | Some (ByTask n) =>
      if bool_decide (n = pipeline_task.name t) then inl (CyclicDependency n) else inr tt
  | Some External => inr tt
  end.

(** Modelled from the spec: step 2 of section 4.4 for every reference of
    one task. *)
Definition check_task (table : gmap string producer) (t : pipeline_task.Task)
  : exn + unit :=
  try_each (check_ref table t) (map snd (pipeline_task.input_refs t)).

(** Modelled from the spec: step 3 of section 4.4, the tasks that must run
    before [t]. *)
Definition dependencies (table : gmap string producer) (t : pipeline_task.Task)
  : list string :=
  omap (λ kv, match table !! kv.2 with
              | Some (ByTask n) => Some n
              | _ => None
              end) (pipeline_task.input_refs t).

(** Modelled from the spec: a task can run once every task it depends on
    is done (section 4.4, step 4). *)
Definition ready (table : gmap string producer) (done : list pipeline_task.Task)
    (t : pipeline_task.Task) : bool :=
  forallb (λ n, bool_decide (n ∈ map pipeline_task.name done)) (dependencies table t).

(** Modelled from the spec: the stable tie-break of section 4.4, the first
    pending task, in declaration order, all of whose dependencies are done,
    and the pending tasks without it. *)
Fixpoint pick (table : gmap string producer) (done pending : list pipeline_task.Task)
  : option (pipeline_task.Task * list pipeline_task.Task) :=
  match pending with
  | [] => None
  | t :: rest =>
      if ready table done t then Some (t, rest)
      else match pick table done rest with
           | Some (t', rest') => Some (t', t :: rest')
           | None => None
           end
  end.

(** Modelled from the spec: one more task of the order, if one can be
    picked. *)
Definition topo_step (table : gmap string producer)
    (st : list pipeline_task.Task * list pipeline_task.Task)
  : list pipeline_task.Task * list pipeline_task.Task :=
  match pick table st.1 st.2 with
  | Some (t, rest) => (st.1 ++ [t], rest)
  | None => st
  end.

(** Modelled from the spec: a pending task that keeps [t] waiting, when
    nothing can be picked. *)
Definition blocker (table : gmap string producer) (done pending : list pipeline_task.Task)
    (t : pipeline_task.Task) : pipeline_task.Task :=
  match filter (λ n, n ∉ map pipeline_task.name done) (dependencies table t) with
  | n :: _ =>
      match filter (λ t', pipeline_task.name t' = n) pending with
      | t' :: _ => t'
      | [] => t
      end
  | [] => t
  end.

(** Modelled from the spec: step 4 of section 4.4, a stable topological
    order; when no order exists, [CyclicDependency] names a task reached by
    following blockers as many times as there are pending tasks. *)
Definition topological_order (table : gmap string producer)
    (ts : list pipeline_task.Task) : exn + list pipeline_task.Task :=
  let '(done, pending) := Nat.iter (length ts) (topo_step table) ([], ts) in
  match pending with
  | [] => inr done
  | t :: _ =>
      inl (CyclicDependency
             (pipeline_task.name
                (Nat.iter (length pending) (blocker table done pending) t)))
  end.

(** Modelled from the spec: graph resolution, section 4.4, steps 1 to 4 in
    that order. *)
Definition resolve (self : Pipeline pipeline_task.Task) : exn + list pipeline_task.Task :=
  table ← build_table (producers self) ∅;
  try_each (check_task table) (tasks self);;
  topological_order table (tasks self).

(** Steps 1 and 2 of section 4.4 raise nothing: [table] is the lookup table
    and every reference of every task resolves to another producer. *)
Definition resolvable (self : Pipeline pipeline_task.Task)
    (table : gmap string producer) : Prop :=
  build_table (producers self) ∅ = inr table
  ∧ try_each (check_task table) (tasks self) = inr tt.

Section run.

(** Modelled from the spec: a runner (section 4.2), from the resolved
    inputs to the produced outputs, or the cause of its failure. *)
Definition Runner : Type :=
  gmap string consumable.Consumable → string + gmap string consumable.Consumable.

(** The runner registry of section 4.2, which is not among the sources. *)
Variable registry : string → option Runner.

(** Modelled from the spec: [create] of section 4.2. *)
Definition create (type_key : string) : exn + Runner :=
  match registry type_key with
  | Some r => inr r
  | None => inl (UnknownRunnerType type_key)
  end.

(** Modelled from the spec: the inputs of [t], by parameter name, from the
    availability registry (section 4.5). *)
Fixpoint gather (t : pipeline_task.Task) (refs : list (string * string))
    (available : gmap string consumable.Consumable)
  : exn + gmap string consumable.Consumable :=
  match refs with
  | [] => inr ∅
  | (param, ref) :: refs' =>
      match available !! ref with
      | Some c => ins ← gather t refs' available; mret (<[param := c]> ins)
      | None => inl (UnresolvedReference (pipeline_task.name t) ref)
      end
  end.

(** Modelled from the spec: each declared output of [t] enters the
    availability registry under [task_name.output_name]; one the runner did
    not return is an error (sections 4.5 and 9). *)
Fixpoint register (t : pipeline_task.Task) (outs : list string)
    (returned available : gmap string consumable.Consumable)
  : exn + gmap string consumable.Consumable :=
  match outs with
  | [] => inr available
  | o :: outs' =>
      match returned !! o with
      | Some c =>
          register t outs' returned
            (<[produced_name t o :=
                 consumable.mkConsumable (consumable.content c) o (pipeline_task.name t)]>
               available)
      | None => inl (RunnerExecutionError (pipeline_task.name t) ("missing output " +:+ o))
      end
  end.

(** Modelled from the spec: one task of section 4.5. *)
Definition execute (tr : pipeline_task.Task * Runner)
    (available : gmap string consumable.Consumable)
  : effects.M (gmap string consumable.Consumable) :=
  let t := tr.1 in
  ins ← effects.lift (gather t (pipeline_task.input_refs t) available);
  effects.emit (effects.Executed (pipeline_task.name t));;
  match tr.2 ins with
  | inl cause => effects.raise (RunnerExecutionError (pipeline_task.name t) cause)
  | inr returned =>
      effects.lift (register t (pipeline_task.declared_outputs t) returned available)
  end.

(** Modelled from the spec: the final check of section 4.5 for one expected
    output. *)
Definition check_expected (available : gmap string consumable.Consumable) (o : string)
  : exn + unit :=
  match available !! o with
  | Some _ => inr tt
  | None => inl (MissingExpectedOutput o)
  end.

(** Modelled from the spec: [Pipeline.run], sections 4.4 and 4.5: resolve
    the graph, create the runners, execute the tasks in the resolved order,
    then check the expected outputs. *)
Definition run (self : Pipeline pipeline_task.Task)
  : effects.M (gmap string consumable.Consumable) :=
  order ← effects.lift (resolve self);
  runners ← effects.lift
    (mapM (M := sum exn) (λ t, create (pipeline_task.runner_type t)) order);
  available ← effects.for_each (zip order runners) execute
    (list_to_map (map (λ kc, (consumable.full_name kc.2, kc.2))
                    (map_to_list (external_inputs self))));
  effects.lift (try_each (check_expected available) (expected_outputs self));;
  mret available.

End run.

End pipeline.

(** ** pipeline_builder.py *)

Module pipeline_builder.
Import py effects.

Record Builder : Type := mkBuilder {
  parsed_yaml : tree;
  command_line_inputs : gmap string string
}.

(** [Builder()] *)
Definition __init__ : Builder := mkBuilder (Map []) ∅.

(** [load_yaml]: reading and parsing the file is the YAML library's work;
    [loaded] is what it returned. *)
Definition load_yaml (loaded : tree) (self : Builder) : Builder :=
  mkBuilder loaded (command_line_inputs self).

(** [pass_command_line_inputs]: [dict.update], new entries win. *)
Definition pass_command_line_inputs (inputs : gmap string string) (self : Builder)
  : Builder :=
  mkBuilder (parsed_yaml self) (inputs ∪ command_line_inputs self).

Section build_pipeline.

Context {Task : Type}.

(** [TaskFactory().spawn_task(c_name, **component_dict)] and
    [utils.list_of_dicts_to_dict]: both are imported from files that are not
    among the sources, so the builder is stated for any such pair. *)
Variable spawn_task : string → list (string * tree) → exn + Task.
Variable list_of_dicts_to_dict : tree → exn + tree.

Definition component_root_message : string :=
  "Component root should be list of dicts of length one with its component.name as a key!".

(** The body of [for component in pipeline_content['components']]. *)
Definition add_component (bad_yaml : bool) (component : tree)
    (pipeline : pipeline.Pipeline Task) : M (pipeline.Pipeline Task) :=
  if negb (Nat.eqb (len component) 1) then
    raise (PipelineParsingError component_root_message)
  else
    ks ← lift (keys component);
    c_name ← lift (first ks);
    v ← lift (getitem component c_name);
    component_dict ← lift (if bad_yaml then list_of_dicts_to_dict v else inr v);
    cks ← lift (keys component_dict);
    if negb (utils.is_subset_of ["runner"; "inputs"; "outputs"] cks) then
      raise (PipelineParsingError
               ("Component " +:+ c_name +:+ " missing one of the key arguments!"))
    else
      kw ← lift (kwargs component_dict);
      emit (Spawned c_name kw);;
      task_from_component ← lift (spawn_task c_name kw);
      mret (pipeline.add_task task_from_component pipeline).

Definition not_found_message (k : string) : string :=
  "Pipeline declared input " +:+ k +:+ " not found in command line inputs!".

(** The body of [for pipeline_input in pipeline_content['inputs']]. *)
Definition add_pipeline_input (self : Builder) (pipeline_input : tree)
    (pipeline : pipeline.Pipeline Task) : M (pipeline.Pipeline Task) :=
  k ← lift (hashable pipeline_input);
  match command_line_inputs self !! k with
  | Some v =>
      consumable_from_input ← lift (consumable.__init__ k v None);
      emit (Constructed consumable_from_input);;
      mret (pipeline.add_input consumable_from_input pipeline)
  | None =>
      raise (PipelineParsingError (not_found_message k))
  end.

(** The body of [for pipeline_output in pipeline_content['outputs']]. *)
Definition add_pipeline_output (pipeline_output : tree)
    (pipeline : pipeline.Pipeline Task) : M (pipeline.Pipeline Task) :=
  present ← lift (pipeline.expects pipeline_output pipeline);
  if negb present then lift (pipeline.add_output pipeline_output pipeline)
  else mret pipeline.

(** [task] is what the factory makes of [component], a mapping with the one
    key [c_name] whose value carries the three required sections. *)
Definition spawned_from (bad_yaml : bool) (component : tree) (task : Task) : Prop :=
  ∃ (c_name : string) (v : tree) (d : list (string * tree)),
    component = Map [(c_name, v)]
    ∧ (if bad_yaml then list_of_dicts_to_dict v else inr v) = inr (Map d)
    ∧ utils.is_subset_of ["runner"; "inputs"; "outputs"] (map fst d) = true
    ∧ spawn_task c_name d = inr task.

(** [c] is the external Consumable of the declared input [pipeline_input]:
    it carries the value supplied under that name and no parent task. *)
Definition supplied (self : Builder) (pipeline_input : tree)
    (c : consumable.Consumable) : Prop :=
  ∃ (k v : string),
    pipeline_input = Str k
    ∧ command_line_inputs self !! k = Some v
    ∧ c = consumable.mkConsumable v k "".

(** The external inputs after the Consumables [cs] were added in turn. *)
Definition with_inputs (cs : list consumable.Consumable)
    (m : gmap string consumable.Consumable) : gmap string consumable.Consumable :=
  foldl (λ acc c, <[consumable.name c := c]> acc) m cs.

(** The check of the base level definition, which gives
    [pipeline_content]. *)
Definition pipeline_content_of (self : Builder) (bad_yaml : bool) : exn + tree :=
  entry ← get (parsed_yaml self) "pipeline";
  if truthy_opt entry then
    v ← getitem (parsed_yaml self) "pipeline";
    if bad_yaml then list_of_dicts_to_dict v else inr v
  else
    inl (PipelineParsingError "Missing pipeline definition.").

(** What the definition declares under [key], as the builder reads it. *)
Definition declared (self : Builder) (bad_yaml : bool) (key : string) : exn + tree :=
  pipeline_content ← pipeline_content_of self bad_yaml;
  getitem pipeline_content key.

(** What a run prints before anything else. *)
Definition announcement (verbose : bool) : list event :=
  if verbose then [Printed "Building pipeline..."] else [].

Definition build_pipeline (self : Builder) (bad_yaml verbose : bool)
  : M (pipeline.Pipeline Task) :=
  (if verbose then emit (Printed "Building pipeline...") else mret tt);;
  pipeline_content ← lift (pipeline_content_of self bad_yaml);
  ks ← lift (keys pipeline_content);
  if negb (utils.is_subset_of ["name"; "inputs"; "outputs"; "components"] ks) then
    raise (PipelineParsingError "Pipeline missing key attributes.")
  else
    pipeline_name ← lift (getitem pipeline_content "name");
    components ← lift (getitem pipeline_content "components");
    pipeline ← for_each (iter components) (add_component bad_yaml)
                 (pipeline.__init__ pipeline_name);
    inputs ← lift (getitem pipeline_content "inputs");
    pipeline ← for_each (iter inputs) (add_pipeline_input self) pipeline;
    outputs ← lift (getitem pipeline_content "outputs");
    pipeline ← for_each (iter outputs) add_pipeline_output pipeline;
    mret pipeline.

End build_pipeline.

End pipeline_builder.

(** ** Sample definitions *)

Module examples.
Import py.

Definition component (c_name runner : string) (inputs : list (string * string))
    (outputs : list string) : tree :=
  Map [(c_name,
        Map [("runner", Str runner);
             ("inputs", Map (map (λ kv, (kv.1, Str kv.2)) inputs));
             ("outputs", Seq (map Str outputs))])].

Definition definition (inputs outputs : list string) (components : list tree) : tree :=
  Map [("pipeline",
        Map [("name", Str "demo");
             ("inputs", Seq (map Str inputs));
             ("outputs", Seq (map Str outputs));
             ("components", Seq components)])].

(** The scenario of section 8: [raw] feeds [clean], which feeds [train]. *)
Definition scenario : tree :=
  definition ["raw"] ["train.model"]
    [component "clean" "noop" [("raw", "raw")] ["clean_data"];
     component "train" "noop" [("data", "clean.clean_data")] ["model"]].

Definition scenario_builder : pipeline_builder.Builder :=
  pipeline_builder.pass_command_line_inputs {["raw" := "x"]}
    (pipeline_builder.load_yaml scenario pipeline_builder.__init__).

(** The same definition with nothing passed on the command line. *)
Definition unsupplied_builder : pipeline_builder.Builder :=
  pipeline_builder.load_yaml scenario pipeline_builder.__init__.

(** A definition whose pipeline entry has no [components]. *)
Definition incomplete : tree :=
  Map [("pipeline", Map [("name", Str "demo"); ("inputs", Seq []); ("outputs", Seq [])])].

(** A definition whose only component is a list of length one. *)
Definition list_component : tree := definition [] [] [Seq [Str "clean"]].

(** A definition with an unsupplied input and a component with two keys. *)
Definition two_keys : tree :=
  definition ["raw"] []
    [Map [("clean", Str "noop"); ("train", Str "noop")]].

(** A definition that names an output twice. *)
Definition repeated_output : tree :=
  definition ["raw"] ["clean.clean_data"; "clean.clean_data"]
    [component "clean" "noop" [("raw", "raw")] ["clean_data"]].

(** The tasks and the pipeline that the scenario gives. *)
Definition clean : pipeline_task.Task :=
  pipeline_task.mkTask "clean" "noop" [("raw", "raw")] ["clean_data"].

Definition train : pipeline_task.Task :=
  pipeline_task.mkTask "train" "noop" [("data", "clean.clean_data")] ["model"].

Definition scenario_pipeline : pipeline.Pipeline pipeline_task.Task :=
  pipeline.mkPipeline (Str "demo") [clean; train]
    {["raw" := consumable.mkConsumable "x" "raw" ""]} ["train.model"].

(** Two tasks that wait for each other. *)
Definition mutual : pipeline.Pipeline pipeline_task.Task :=
  pipeline.mkPipeline (Str "demo")
    [pipeline_task.mkTask "x" "noop" [("a", "y.o")] ["o"];
     pipeline_task.mkTask "y" "noop" [("a", "x.o")] ["o"]]
    ∅ [].

(** The same two tasks, the first with one more reference, which nothing
    produces. *)
Definition mutual_unresolved : pipeline.Pipeline pipeline_task.Task :=
  pipeline.mkPipeline (Str "demo")
    [pipeline_task.mkTask "x" "noop" [("a", "y.o"); ("b", "raw")] ["o"];
     pipeline_task.mkTask "y" "noop" [("a", "x.o")] ["o"]]
    ∅ [].

(** A registry with the one runner [noop], which hands the content of each
    input on under every output name of the scenario. *)
Definition scenario_registry (type_key : string) : option pipeline.Runner :=
  if String.eqb type_key "noop"
  then Some (λ ins,
         let c := default "" (consumable.content <$> (snd <$> head (map_to_list ins))) in
         inr (list_to_map
                [("clean_data", consumable.mkConsumable c "clean_data" "");
                 ("model", consumable.mkConsumable c "model" "")]))
  else None.

End examples.

(** ** The loops of [build_pipeline] in sequence *)

Module loops.
Import py effects pipeline_builder.

Section fill.

Context {Task : Type}.
Variable spawn_task : string → list (string * tree) → exn + Task.
Variable list_of_dicts_to_dict : tree → exn + tree.

(** The three loops of [build_pipeline], from the moment the definition has
    given the name of the pipeline and its three sequences. *)
Definition fill (self : Builder) (bad_yaml : bool)
    (pname components inputs outputs : tree) : M (pipeline.Pipeline Task) :=
  pipeline ← for_each (iter components)
               (add_component spawn_task list_of_dicts_to_dict bad_yaml)
               (pipeline.__init__ pname);
  pipeline ← for_each (iter inputs) (add_pipeline_input self) pipeline;
  for_each (iter outputs) add_pipeline_output pipeline.

(** [ev] is the call of the factory for [component]: the one key as the
    name, the sections under it as keyword arguments. *)
Definition called_for (bad_yaml : bool) (component : tree) (ev : event) : Prop :=
  ∃ (c_name : string) (v : tree) (d : list (string * tree)),
    component = Map [(c_name, v)]
    ∧ (if bad_yaml then list_of_dicts_to_dict v else inr v) = inr (Map d)
    ∧ utils.is_subset_of ["runner"; "inputs"; "outputs"] (map fst d) = true
    ∧ ev = Spawned c_name d.

End fill.

End loops.

(** ** Names without a dot *)

Module names.

(** No character of [s] is a dot. *)
Fixpoint dotless (s : string) : bool :=
  match s with
  | EmptyString => true
  | String a s' => negb (String.eqb (String a EmptyString) ".") && dotless s'
  end.

End names.

(** ** More sample definitions *)

Module more_examples.
Import py.

(** A definition whose [pipeline] entry is an empty list. *)
Definition empty_entry : tree := Map [("pipeline", Seq [])].

(** What a YAML file that holds a list gives. *)
Definition top_level_list : tree := Seq [Str "pipeline"].

(** A definition whose [pipeline] entry is a list, with none of the four
    keys. *)
Definition list_entry : tree := Map [("pipeline", Seq [Str "demo"])].

(** Two inputs declared and no component; [supplied_first] has a value for
    the first input only. *)
Definition two_inputs : tree :=
  examples.definition ["raw"; "labels"] [] [].

Definition supplied_first : gmap string string := {["raw" := "x"]}.

(** A definition whose [pipeline] entry is a bare string. *)
Definition string_entry : tree := Map [("pipeline", Str "demo")].

Definition clean_component : tree :=
  examples.component "clean" "noop" [("raw", "raw")] ["clean_data"].

(** A second component that is an empty mapping. *)
Definition empty_component : tree :=
  examples.definition ["raw"] [] [clean_component; Map []].

(** A second component without [inputs] and [outputs]. *)
Definition train_sections : tree := Map [("runner", Str "noop")].

Definition missing_sections : tree :=
  examples.definition ["raw"] [] [clean_component; Map [("train", train_sections)]].

(** A second component that declares no output, which the factory of
    section 4.3 refuses. *)
Definition no_outputs : tree :=
  examples.definition ["raw"] []
    [clean_component; examples.component "train" "noop" [] []].

(** A second component that is a one-character string. *)
Definition string_component : tree :=
  examples.definition ["raw"] [] [clean_component; Str "t"].

(** A second component written as [train: noop]. *)
Definition runner_only : tree :=
  examples.definition ["raw"] [] [clean_component; Map [("train", Str "noop")]].

(** A definition whose second input is a nested list. *)
Definition nested_input : tree :=
  Map [("pipeline",
        Map [("name", Str "demo");
             ("inputs", Seq [Str "raw"; Seq [Str "extra"]]);
             ("outputs", Seq []);
             ("components", Seq [clean_component])])].

Definition supplied_raw : gmap string string := {["raw" := "x"]}.

End more_examples.

(** * Properties *)

(** ** Reasoning about computations *)

Section effects_facts.
Import py effects.
Context {A B : Type}.

Lemma lift_bind (r : exn + A) (f : A → M B) :
  lift r ≫= f = match r with inl e => ([], inl e) | inr a => f a end.
Proof.
  destruct r as [e|a]; [reflexivity|].
  unfold lift, mbind, M_bind. by destruct (f a).
Qed.

Lemma raise_bind (e : exn) (f : A → M B) : raise e ≫= f = raise e.
Proof. reflexivity. Qed.

Lemma ret_bind (a : A) (f : A → M B) : mret a ≫= f = f a.
Proof. unfold mret, M_ret, mbind, M_bind. by destruct (f a). Qed.

Lemma bind_log_outcome (m : M A) (f : A → M B) :
  m ≫= f =
  match outcome m with
  | inl e => (log m, inl e)
  | inr a => (log m ++ log (f a), outcome (f a))
  end.
Proof.
  destruct m as [l [e|a]]; [reflexivity|].
  unfold mbind, M_bind, log, outcome; simpl. by destruct (f a).
Qed.

Lemma bind_success (m : M A) (f : A → M B) (l : list event) (b : B) :
  m ≫= f = (l, inr b) →
  ∃ l1 a l2, m = (l1, inr a) ∧ f a = (l2, inr b) ∧ l = l1 ++ l2.
Proof.
  rewrite bind_log_outcome. destruct m as [l1 [e|a]]; simpl; [done|].
  destruct (f a) as [l2 r] eqn:Hf; simpl. intros [= <- ->]. by exists l1, a, l2.
Qed.

End effects_facts.

Lemma emit_bind {B : Type} (ev : effects.event) (k : effects.M B) :
  effects.emit ev ≫= (λ _, k) = (ev :: effects.log k, effects.outcome k).
Proof. by destruct k. Qed.

Lemma lift_success {A : Type} (r : py.exn + A) (l : list effects.event) (a : A) :
  effects.lift r = (l, inr a) → r = inr a ∧ l = [].
Proof. unfold effects.lift. by intros [= <- ->]. Qed.

(** ** consumable.py *)

Section consumable_facts.
Import py consumable.

Lemma truthy_Str (s : string) : truthy (Str s) = bool_decide (s ≠ "").
Proof.
  unfold truthy. destruct (String.eqb_spec s "") as [->|Hne].
  - reflexivity.
  - symmetry. by apply bool_decide_eq_true_2.
Qed.

(** C1: the full name of a Consumable is [parent_task_name.name] when the
    parent task name is not empty and the bare name when it is; it is
    computed from the attributes at each access, so it follows them when
    they are assigned anew. *)
Theorem full_name_derived (c : Consumable) :
  (parent_task_name c ≠ "" →
   full_name c = parent_task_name c +:+ "." +:+ name c)
  ∧ (parent_task_name c = "" → full_name c = name c)
  ∧ (∀ n p : string,
       full_name (set_parent_task_name p (set_name n c))
       = if decide (p = "") then n else p +:+ "." +:+ n).
Proof.
  unfold full_name. split_and!.
  - intros Hne. by rewrite truthy_Str, bool_decide_eq_true_2.
  - intros ->. reflexivity.
  - intros n p. rewrite truthy_Str. simpl.
    destruct (decide (p = "")) as [->|Hne]; [reflexivity|].
    by rewrite bool_decide_eq_true_2.
Qed.

Lemma full_name_derived_witness :
  full_name (mkConsumable "x" "clean_data" "clean") = "clean.clean_data"
  ∧ full_name (mkConsumable "x" "raw" "") = "raw".
Proof.
  split.
  - apply (proj1 (full_name_derived (mkConsumable "x" "clean_data" "clean"))).
    discriminate.
  - apply (proj1 (proj2 (full_name_derived (mkConsumable "x" "raw" "")))).
    reflexivity.
Defined.

(** C5, as the specification words it, fails: the constructor accepts an
    empty name. *)
Lemma empty_name_accepted :
  __init__ "" "x" None = inr (mkConsumable "x" "" "")
  ∧ ¬ (∃ e : exn, __init__ "" "x" None = inl e).
Proof. split; [reflexivity|]. intros [e He]. discriminate He. Qed.

(** C5, amended: the constructor takes a name and a content, which it
    stores as given without looking at them, so that no name, the empty one
    included, makes it fail; the parent task name may be left out and is
    then the empty string. *)
Theorem init_stores_arguments (n v : string) (p : option string) :
  ∃ c : Consumable,
    __init__ n v p = inr c
    ∧ name c = n ∧ content c = v
    ∧ parent_task_name c = match p with Some q => q | None => "" end.
Proof. eexists. split; [reflexivity|]. by destruct p. Qed.

End consumable_facts.

(** ** pipeline_builder.py *)

Section builder_facts.
Import py effects pipeline_builder.
Context {Task : Type}.
Variable spawn_task : string → list (string * tree) → exn + Task.
Variable list_of_dicts_to_dict : tree → exn + tree.

#[local] Abbreviation add_component := (add_component spawn_task list_of_dicts_to_dict).
#[local] Abbreviation build_pipeline := (build_pipeline spawn_task list_of_dicts_to_dict).
#[local] Abbreviation pipeline_content_of := (pipeline_content_of list_of_dicts_to_dict).
#[local] Abbreviation declared := (declared list_of_dicts_to_dict).
#[local] Abbreviation spawned_from := (spawned_from spawn_task list_of_dicts_to_dict).

Lemma lookup_head (k : string) (v : tree) (m : list (string * tree)) :
  lookup k ((k, v) :: m) = Some v.
Proof. simpl. by rewrite String.eqb_refl. Qed.

(** *** The loop over the components *)

Lemma add_component_length (bad_yaml : bool) (component : tree)
    (p : pipeline.Pipeline Task) :
  len component ≠ 1 →
  add_component bad_yaml component p = raise (PipelineParsingError component_root_message).
Proof.
  intros Hlen. unfold pipeline_builder.add_component.
  destruct (Nat.eqb_spec (len component) 1) as [Heq|_]; [done|reflexivity].
Qed.

Lemma add_component_not_mapping (bad_yaml : bool) (component : tree)
    (p : pipeline.Pipeline Task) :
  len component = 1 →
  (∀ m, component ≠ Map m) →
  add_component bad_yaml component p = ([], inl (no_attribute component "keys")).
Proof.
  intros Hlen Hmap. unfold pipeline_builder.add_component. rewrite Hlen.
  simpl negb. cbv iota. rewrite lift_bind.
  destruct component as [s|items|m]; try reflexivity. by destruct (Hmap m).
Qed.

Lemma add_component_single (bad_yaml : bool) (c_name : string) (v : tree)
    (p : pipeline.Pipeline Task) :
  add_component bad_yaml (Map [(c_name, v)]) p =
  component_dict ← lift (if bad_yaml then list_of_dicts_to_dict v else inr v);
  cks ← lift (keys component_dict);
  if negb (utils.is_subset_of ["runner"; "inputs"; "outputs"] cks) then
    raise (PipelineParsingError
             ("Component " +:+ c_name +:+ " missing one of the key arguments!"))
  else
    kw ← lift (kwargs component_dict);
    emit (Spawned c_name kw);;
    task_from_component ← lift (spawn_task c_name kw);
    mret (pipeline.add_task task_from_component p).
Proof.
  unfold pipeline_builder.add_component. simpl len. simpl negb. cbv iota.
  rewrite lift_bind. simpl keys. cbv iota. rewrite lift_bind. simpl first. cbv iota.
  rewrite lift_bind. unfold getitem. rewrite lookup_head. reflexivity.
Qed.

Lemma add_component_missing_section (bad_yaml : bool) (c_name : string) (v : tree)
    (d : list (string * tree)) (p : pipeline.Pipeline Task) :
  (if bad_yaml then list_of_dicts_to_dict v else inr v) = inr (Map d) →
  utils.is_subset_of ["runner"; "inputs"; "outputs"] (map fst d) = false →
  add_component bad_yaml (Map [(c_name, v)]) p =
  raise (PipelineParsingError
           ("Component " +:+ c_name +:+ " missing one of the key arguments!")).
Proof.
  intros Hd Hsub. rewrite add_component_single, Hd, lift_bind.
  simpl keys. rewrite lift_bind, Hsub. reflexivity.
Qed.

Lemma add_component_spawns (bad_yaml : bool) (c_name : string) (v : tree)
    (d : list (string * tree)) (p : pipeline.Pipeline Task) :
  (if bad_yaml then list_of_dicts_to_dict v else inr v) = inr (Map d) →
  utils.is_subset_of ["runner"; "inputs"; "outputs"] (map fst d) = true →
  add_component bad_yaml (Map [(c_name, v)]) p =
  ([Spawned c_name d],
   match spawn_task c_name d with
   | inl e => inl e
   | inr task => inr (pipeline.add_task task p)
   end).
Proof.
  intros Hd Hsub. rewrite add_component_single, Hd, lift_bind.
  simpl keys. rewrite lift_bind, Hsub. simpl negb. cbv iota.
  simpl kwargs. rewrite lift_bind, emit_bind, lift_bind.
  by destruct (spawn_task c_name d).
Qed.

Lemma add_component_success (bad_yaml : bool) (component : tree)
    (p p' : pipeline.Pipeline Task) (l : list event) :
  add_component bad_yaml component p = (l, inr p') →
  ∃ (c_name : string) (d : list (string * tree)) (task : Task),
    spawned_from bad_yaml component task
    ∧ l = [Spawned c_name d]
    ∧ p' = pipeline.add_task task p.
Proof.
  intros H.
  destruct (decide (len component = 1)) as [Hlen|Hlen];
    [|by rewrite add_component_length in H].
  destruct component as [s|items|m].
  - by rewrite add_component_not_mapping in H.
  - by rewrite add_component_not_mapping in H.
  - destruct m as [|[c_name v] [|? ?]]; try discriminate Hlen.
    destruct (if bad_yaml then list_of_dicts_to_dict v else inr v) as [e|cd] eqn:Hd.
    { rewrite add_component_single, Hd in H. discriminate H. }
    destruct cd as [s|items|d];
      try (rewrite add_component_single, Hd in H; discriminate H).
    destruct (utils.is_subset_of ["runner"; "inputs"; "outputs"] (map fst d)) eqn:Hsub;
      [|by rewrite (add_component_missing_section _ _ _ d) in H].
    rewrite (add_component_spawns _ _ _ d) in H by done.
    destruct (spawn_task c_name d) as [e|task] eqn:Hsp; [discriminate H|].
    injection H as <- <-. exists c_name, d, task. split_and!; try done.
    by exists c_name, v, d.
Qed.

Lemma components_loop (bad_yaml : bool) (components : list tree)
    (p p' : pipeline.Pipeline Task) (l : list event) :
  for_each components (add_component bad_yaml) p = (l, inr p') →
  ∃ ts : list Task,
    Forall2 (spawned_from bad_yaml) components ts
    ∧ pipeline.tasks p' = pipeline.tasks p ++ ts
    ∧ pipeline.name p' = pipeline.name p
    ∧ pipeline.external_inputs p' = pipeline.external_inputs p
    ∧ pipeline.expected_outputs p' = pipeline.expected_outputs p
    ∧ length (spawned l) = length components
    ∧ constructed l = [].
Proof.
  revert p l. induction components as [|c cs IH]; intros p l H.
  - injection H as <- <-. exists []. rewrite app_nil_r. by split_and!.
  - simpl in H. apply bind_success in H as (l1 & p1 & l2 & Hc & Hcs & ->).
    apply add_component_success in Hc as (c_name & d & task & Hfrom & -> & ->).
    apply IH in Hcs as (ts & Hall & Hts & Hn & He & Ho & Hsp & Hco).
    exists (task :: ts). split_and!; try done.
    + by constructor.
    + rewrite Hts. simpl. by rewrite <- app_assoc.
    + simpl. by rewrite Hsp.
Qed.

(** *** The loop over the declared inputs *)

Lemma add_pipeline_input_absent (self : Builder) (k : string)
    (p : pipeline.Pipeline Task) :
  command_line_inputs self !! k = None →
  add_pipeline_input self (Str k) p = raise (PipelineParsingError (not_found_message k)).
Proof.
  intros Hk. unfold add_pipeline_input. simpl hashable. rewrite lift_bind, Hk.
  reflexivity.
Qed.

Lemma add_pipeline_input_present (self : Builder) (k v : string)
    (p : pipeline.Pipeline Task) :
  command_line_inputs self !! k = Some v →
  add_pipeline_input self (Str k) p =
  ([Constructed (consumable.mkConsumable v k "")],
   inr (pipeline.add_input (consumable.mkConsumable v k "") p)).
Proof.
  intros Hk. unfold add_pipeline_input. simpl hashable. rewrite lift_bind, Hk.
  reflexivity.
Qed.

Lemma add_pipeline_input_success (self : Builder) (pipeline_input : tree)
    (p p' : pipeline.Pipeline Task) (l : list event) :
  add_pipeline_input self pipeline_input p = (l, inr p') →
  ∃ c : consumable.Consumable,
    supplied self pipeline_input c ∧ l = [Constructed c] ∧ p' = pipeline.add_input c p.
Proof.
  intros H. destruct pipeline_input as [k|items|m]; try discriminate H.
  destruct (command_line_inputs self !! k) as [v|] eqn:Hk.
  - rewrite (add_pipeline_input_present _ _ v) in H by done. injection H as <- <-.
    eexists. split_and!; try reflexivity. by exists k, v.
  - by rewrite add_pipeline_input_absent in H.
Qed.

(** Whatever the outcome, a Consumable the loop body constructs is the one
    of a supplied input. *)
Lemma add_pipeline_input_log (self : Builder) (pipeline_input : tree)
    (p : pipeline.Pipeline Task) :
  Forall (λ ev, ∃ c, ev = Constructed c ∧ supplied self pipeline_input c)
    (log (add_pipeline_input self pipeline_input p)).
Proof.
  destruct pipeline_input as [k|items|m]; try by constructor.
  destruct (command_line_inputs self !! k) as [v|] eqn:Hk.
  - rewrite (add_pipeline_input_present _ _ v) by done. repeat constructor.
    eexists. split; [reflexivity|]. by exists k, v.
  - rewrite add_pipeline_input_absent by done. constructor.
Qed.

Lemma inputs_loop (self : Builder) (inputs : list tree)
    (p p' : pipeline.Pipeline Task) (l : list event) :
  for_each inputs (add_pipeline_input self) p = (l, inr p') →
  ∃ cs : list consumable.Consumable,
    Forall2 (supplied self) inputs cs
    ∧ l = map Constructed cs
    ∧ pipeline.tasks p' = pipeline.tasks p
    ∧ pipeline.name p' = pipeline.name p
    ∧ pipeline.expected_outputs p' = pipeline.expected_outputs p
    ∧ pipeline.external_inputs p' = pipeline_builder.with_inputs cs (pipeline.external_inputs p).
Proof.
  revert p l. induction inputs as [|i inputs IH]; intros p l H.
  - injection H as <- <-. exists []. by split_and!.
  - simpl in H. apply bind_success in H as (l1 & p1 & l2 & Hi & His & ->).
    apply add_pipeline_input_success in Hi as (c & Hc & -> & ->).
    apply IH in His as (cs & Hall & -> & Hts & Hn & Ho & He).
    exists (c :: cs). split_and!; try done. by constructor.
Qed.

(** *** The loop over the declared outputs *)

Lemma add_pipeline_output_success (pipeline_output : tree)
    (p p' : pipeline.Pipeline Task) (l : list event) :
  add_pipeline_output pipeline_output p = (l, inr p') →
  ∃ o : string,
    pipeline_output = Str o
    ∧ l = []
    ∧ pipeline.tasks p' = pipeline.tasks p
    ∧ pipeline.name p' = pipeline.name p
    ∧ pipeline.external_inputs p' = pipeline.external_inputs p
    ∧ pipeline.expected_outputs p' =
        if bool_decide (o ∈ pipeline.expected_outputs p)
        then pipeline.expected_outputs p
        else pipeline.expected_outputs p ++ [o].
Proof.
  intros H. destruct pipeline_output as [o|items|m]; try discriminate H.
  exists o. unfold add_pipeline_output, pipeline.expects in H. simpl hashable in H.
  rewrite lift_bind in H.
  destruct (bool_decide (o ∈ pipeline.expected_outputs p)); simpl in H;
    injection H as <- <-; by split_and!.
Qed.

Lemma outputs_loop (outputs : list tree) (p p' : pipeline.Pipeline Task)
    (l : list event) :
  for_each outputs add_pipeline_output p = (l, inr p') →
  l = []
  ∧ pipeline.tasks p' = pipeline.tasks p
  ∧ pipeline.name p' = pipeline.name p
  ∧ pipeline.external_inputs p' = pipeline.external_inputs p
  ∧ (NoDup (pipeline.expected_outputs p) → NoDup (pipeline.expected_outputs p'))
  ∧ (∀ o, o ∈ pipeline.expected_outputs p'
          ↔ o ∈ pipeline.expected_outputs p ∨ Str o ∈ outputs).
Proof.
  revert p l. induction outputs as [|x outputs IH]; intros p l H.
  - injection H as <- <-. split_and!; try done. intros o. split; [by left|].
    intros [?|Hin]; [done|]. by apply elem_of_nil in Hin.
  - simpl in H. apply bind_success in H as (l1 & p1 & l2 & Hx & Hxs & ->).
    apply add_pipeline_output_success in Hx as (o & -> & -> & Ht & Hn & He & Ho).
    apply IH in Hxs as (-> & Ht' & Hn' & He' & Hnd & Hin).
    split_and!; try congruence; try reflexivity.
    + intros Hp. apply Hnd. rewrite Ho. case_bool_decide; [done|].
      apply NoDup_app. split_and!; [done| |apply NoDup_singleton].
      intros y Hy ->%list_elem_of_singleton. done.
    + intros y. rewrite Hin, Ho, elem_of_cons.
      case_bool_decide; [|rewrite elem_of_app, list_elem_of_singleton].
      * split; [intros [?|?]; auto|].
        intros [?|[Heq|?]]; auto. injection Heq as ->. auto.
      * split; [intros [[?| ->]|?]; auto|].
        intros [?|[Heq|?]]; auto. injection Heq as ->. auto.
Qed.

(** A present name makes the loop body do nothing. *)
Lemma add_pipeline_output_present (o : string) (p : pipeline.Pipeline Task) :
  o ∈ pipeline.expected_outputs p →
  add_pipeline_output (Str o) p = mret p.
Proof.
  intros Hin. unfold add_pipeline_output, pipeline.expects. simpl hashable.
  rewrite lift_bind. by rewrite bool_decide_eq_true_2.
Qed.

(** *** What the log of a run may hold *)

Lemma log_bind {A B : Type} (E : event → Prop) (m : M A) (f : A → M B) :
  Forall E (log m) → (∀ a, Forall E (log (f a))) → Forall E (log (m ≫= f)).
Proof.
  intros Hm Hf. rewrite bind_log_outcome. destruct (outcome m) as [e|a]; [done|].
  apply Forall_app. split; [done|apply Hf].
Qed.

Lemma log_lift_bind {A B : Type} (E : event → Prop) (r : exn + A) (f : A → M B) :
  (∀ a, Forall E (log (f a))) → Forall E (log (lift r ≫= f)).
Proof. intros Hf. apply log_bind; [constructor|done]. Qed.

Lemma log_for_each {A S : Type} (E : event → Prop) (body : A → S → M S)
    (xs : list A) (s : S) :
  (∀ x s', Forall E (log (body x s'))) → Forall E (log (for_each xs body s)).
Proof.
  intros Hbody. revert s. induction xs as [|x xs IH]; intros s; [constructor|].
  simpl. apply log_bind; [apply Hbody|apply IH].
Qed.

Lemma add_component_log (bad_yaml : bool) (component : tree)
    (p : pipeline.Pipeline Task) :
  Forall (λ ev, is_spawn ev = true) (log (add_component bad_yaml component p)).
Proof.
  destruct (decide (len component = 1)) as [Hlen|Hlen];
    [|rewrite add_component_length by done; constructor].
  destruct component as [s|items|m];
    try (rewrite add_component_not_mapping by done; constructor).
  destruct m as [|[c_name v] [|? ?]]; try discriminate Hlen.
  destruct (if bad_yaml then list_of_dicts_to_dict v else inr v) as [e|cd] eqn:Hd;
    [rewrite add_component_single, Hd; constructor|].
  destruct cd as [s|items|d];
    try (rewrite add_component_single, Hd; constructor).
  destruct (utils.is_subset_of ["runner"; "inputs"; "outputs"] (map fst d)) eqn:Hsub.
  - rewrite (add_component_spawns _ _ _ d) by done. by repeat constructor.
  - rewrite (add_component_missing_section _ _ _ d) by done. constructor.
Qed.

Lemma add_pipeline_output_log (pipeline_output : tree) (p : pipeline.Pipeline Task) :
  log (add_pipeline_output pipeline_output p) = [].
Proof.
  destruct pipeline_output as [o|items|m]; try reflexivity.
  unfold add_pipeline_output, pipeline.expects. simpl hashable. rewrite lift_bind.
  by destruct (bool_decide (o ∈ pipeline.expected_outputs p)).
Qed.

(** Whatever the outcome, a run logs nothing but its announcement, the calls
    of the task factory and the Consumables of supplied inputs. *)
Lemma build_pipeline_log (self : Builder) (bad_yaml verbose : bool) :
  Forall (λ ev, match ev with
                | Printed _ | Spawned _ _ => True
                | Constructed c => ∃ i, supplied self i c
                | Executed _ => False
                end)
    (log (build_pipeline self bad_yaml verbose)).
Proof.
  unfold pipeline_builder.build_pipeline.
  apply log_bind; [destruct verbose; by repeat constructor|intros _].
  apply log_lift_bind; intros content. apply log_lift_bind; intros ks.
  destruct (negb _); [constructor|].
  apply log_lift_bind; intros pname. apply log_lift_bind; intros comps.
  apply log_bind.
  { apply log_for_each. intros c q.
    eapply Forall_impl; [apply add_component_log|]. by intros [] ?. }
  intros p1. apply log_lift_bind; intros ins. apply log_bind.
  { apply log_for_each. intros i q.
    eapply Forall_impl; [apply add_pipeline_input_log|].
    intros ev (c & -> & Hc). by exists i. }
  intros p2. apply log_lift_bind; intros outs. apply log_bind; [|constructor].
  apply log_for_each. intros o q. rewrite add_pipeline_output_log. constructor.
Qed.

(** *** A run that returns a pipeline *)

Lemma build_pipeline_success (self : Builder) (bad_yaml verbose : bool)
    (l : list event) (p : pipeline.Pipeline Task) :
  build_pipeline self bad_yaml verbose = (l, inr p) →
  ∃ (pname comps ins outs : tree) (l1 l2 l3 : list event)
    (p1 p2 : pipeline.Pipeline Task),
    declared self bad_yaml "name" = inr pname
    ∧ declared self bad_yaml "components" = inr comps
    ∧ declared self bad_yaml "inputs" = inr ins
    ∧ declared self bad_yaml "outputs" = inr outs
    ∧ for_each (iter comps) (add_component bad_yaml) (pipeline.__init__ pname)
      = (l1, inr p1)
    ∧ for_each (iter ins) (add_pipeline_input self) p1 = (l2, inr p2)
    ∧ for_each (iter outs) add_pipeline_output p2 = (l3, inr p)
    ∧ l = announcement verbose ++ l1 ++ l2 ++ l3.
Proof.
  intros H. unfold pipeline_builder.build_pipeline in H.
  apply bind_success in H as (l0 & u & l' & Hann & H & ->).
  rewrite lift_bind in H.
  destruct (pipeline_content_of self bad_yaml) as [e|content] eqn:Hc;
    [discriminate H|].
  rewrite lift_bind in H. destruct (keys content) as [e|ks]; [discriminate H|].
  destruct (negb _); [discriminate H|].
  rewrite lift_bind in H.
  destruct (getitem content "name") as [e|pname] eqn:Hn; [discriminate H|].
  rewrite lift_bind in H.
  destruct (getitem content "components") as [e|comps] eqn:Hcs; [discriminate H|].
  apply bind_success in H as (l1 & p1 & l1' & Hcomps & H & ->).
  rewrite lift_bind in H.
  destruct (getitem content "inputs") as [e|ins] eqn:Hi; [discriminate H|].
  apply bind_success in H as (l2 & p2 & l2' & Hins & H & ->).
  rewrite lift_bind in H.
  destruct (getitem content "outputs") as [e|outs] eqn:Ho; [discriminate H|].
  apply bind_success in H as (l3 & p3 & l3' & Houts & H & ->).
  injection H as <- <-.
  exists pname, comps, ins, outs, l1, l2, l3, p1, p2.
  unfold pipeline_builder.declared. rewrite Hc. simpl.
  split_and!; try done.
  rewrite app_nil_r. f_equal. by destruct verbose; injection Hann as <- _.
Qed.

Lemma announce_bind {B : Type} (verbose : bool) (k : M B) :
  (if verbose then emit (Printed "Building pipeline...") else mret tt) ≫= (λ _, k)
  = (announcement verbose ++ log k, outcome k).
Proof. destruct verbose; [apply emit_bind|]. rewrite ret_bind. by destruct k. Qed.

Lemma is_subset_of_spec (required present : list string) :
  utils.is_subset_of required present = true ↔ ∀ k, k ∈ required → k ∈ present.
Proof.
  unfold utils.is_subset_of. induction required as [|r required IH]; simpl.
  - split; [|done]. intros _ k Hk. by apply elem_of_nil in Hk.
  - rewrite andb_true_iff, IH, bool_decide_eq_true. split.
    + intros [Hr Hrest] k [->|Hk]%elem_of_cons; auto.
    + intros Hall. split; [|intros k Hk]; apply Hall; [left|by right].
Qed.

Lemma is_subset_of_lacking (required present : list string) (k : string) :
  k ∈ required → k ∉ present → utils.is_subset_of required present = false.
Proof.
  intros Hk Hnk. apply not_true_is_false. rewrite is_subset_of_spec. naive_solver.
Qed.

Lemma lookup_keys (k : string) (v : tree) (m : list (string * tree)) :
  lookup k m = Some v → k ∈ map fst m.
Proof.
  induction m as [|[k' v'] m IH]; simpl; [done|].
  destruct (String.eqb_spec k k') as [->|Hne]; [left|]. intros H. right. auto.
Qed.

Lemma getitem_inr (content v : tree) (k : string) :
  getitem content k = inr v → ∃ c, content = Map c ∧ lookup k c = Some v.
Proof.
  destruct content as [s|items|c]; try discriminate. simpl.
  destruct (lookup k c) as [v'|] eqn:Hk; [|discriminate]. intros [= ->]. by exists c.
Qed.

Lemma declared_inr (self : Builder) (bad_yaml : bool) (k : string) (v : tree) :
  declared self bad_yaml k = inr v →
  ∃ c, pipeline_content_of self bad_yaml = inr (Map c) ∧ lookup k c = Some v.
Proof.
  unfold pipeline_builder.declared.
  destruct (pipeline_content_of self bad_yaml) as [e|content]; [discriminate|].
  simpl. intros (c & -> & Hk)%getitem_inr. by exists c.
Qed.

(** *** Runs that stop at the check of the base level definition *)

Lemma build_pipeline_no_content (self : Builder) (bad_yaml verbose : bool) (e : exn) :
  pipeline_content_of self bad_yaml = inl e →
  build_pipeline self bad_yaml verbose = (announcement verbose, inl e).
Proof.
  intros Hc. unfold pipeline_builder.build_pipeline.
  rewrite announce_bind, Hc, lift_bind. simpl. by rewrite app_nil_r.
Qed.

Lemma build_pipeline_missing_key (self : Builder) (bad_yaml verbose : bool)
    (content : tree) (ks : list string) :
  pipeline_content_of self bad_yaml = inr content →
  keys content = inr ks →
  utils.is_subset_of ["name"; "inputs"; "outputs"; "components"] ks = false →
  build_pipeline self bad_yaml verbose
  = (announcement verbose, inl (PipelineParsingError "Pipeline missing key attributes.")).
Proof.
  intros Hc Hks Hsub. unfold pipeline_builder.build_pipeline.
  rewrite announce_bind, Hc, lift_bind, Hks, lift_bind, Hsub. simpl.
  by rewrite app_nil_r.
Qed.

(** A run is its announcement followed by a computation that does not
    depend on [verbose]. *)
Lemma build_pipeline_announced (self : Builder) (bad_yaml : bool) :
  ∃ k : M (pipeline.Pipeline Task),
    ∀ verbose : bool,
      build_pipeline self bad_yaml verbose = (announcement verbose ++ log k, outcome k).
Proof.
  eexists. intros verbose. unfold pipeline_builder.build_pipeline.
  apply announce_bind.
Qed.

(** *** The claims about the builder *)

(** For a definition that is a mapping: when it has no [pipeline] entry or
    an empty one, or the content of that entry is a mapping that lacks one
    of the keys [name], [inputs], [outputs], [components], the builder
    raises [PipelineParsingError]; no pipeline is returned, and the run has
    done nothing but print its announcement: no task was constructed. *)
Theorem structural_failure_before_tasks (self : Builder) (bad_yaml verbose : bool)
    (m : list (string * tree)) :
  parsed_yaml self = Map m →
  (lookup "pipeline" m = None
   ∨ (∃ entry : tree, lookup "pipeline" m = Some entry ∧ truthy entry = false)
   ∨ ∃ (entry : tree) (c : list (string * tree)) (k : string),
       lookup "pipeline" m = Some entry
       ∧ (if bad_yaml then list_of_dicts_to_dict entry else inr entry) = inr (Map c)
       ∧ k ∈ ["name"; "inputs"; "outputs"; "components"]
       ∧ k ∉ map fst c) →
  (∃ message : string,
     outcome (build_pipeline self bad_yaml verbose)
     = inl (PipelineParsingError message))
  ∧ log (build_pipeline self bad_yaml verbose) = announcement verbose.
Proof.
  intros Hm Hbad.
  assert (pipeline_content_of self bad_yaml
          = inl (PipelineParsingError "Missing pipeline definition.")
          ∨ ∃ c k, pipeline_content_of self bad_yaml = inr (Map c)
                   ∧ k ∈ ["name"; "inputs"; "outputs"; "components"]
                   ∧ k ∉ map fst c) as [Hc|(c & k & Hc & Hk & Hnk)].
  { unfold pipeline_builder.pipeline_content_of. rewrite Hm. simpl get. simpl getitem.
    destruct Hbad
      as [Hnone|[(entry & Hentry & Hfalsy)
                |(entry & c & k & Hentry & Hcontent & Hk & Hnk)]].
    - left. by rewrite Hnone.
    - left. rewrite Hentry. simpl. by rewrite Hfalsy.
    - rewrite Hentry. simpl. destruct (truthy entry); [right|by left].
      exists c, k. by rewrite Hcontent. }
  - rewrite (build_pipeline_no_content _ _ _ _ Hc). split; [by eexists|done].
  - rewrite (build_pipeline_missing_key _ _ _ (Map c) (map fst c) Hc);
      [split; [by eexists|done]|done|by apply (is_subset_of_lacking _ _ k)].
Qed.

(** C6: the tasks of the returned pipeline are, one for one and in the same
    order, what the task factory made of the entries of the definition's
    [components] sequence. *)
Theorem tasks_in_declaration_order (self : Builder) (bad_yaml verbose : bool)
    (p : pipeline.Pipeline Task) :
  outcome (build_pipeline self bad_yaml verbose) = inr p →
  ∃ components : tree,
    declared self bad_yaml "components" = inr components
    ∧ Forall2 (spawned_from bad_yaml) (iter components) (pipeline.tasks p).
Proof.
  destruct (build_pipeline self bad_yaml verbose) as [l r] eqn:Hrun. simpl.
  intros ->. apply build_pipeline_success in Hrun
    as (pname & comps & ins & outs & l1 & l2 & l3 & p1 & p2
        & _ & Hcomps & _ & _ & Hl1 & Hl2 & Hl3 & _).
  exists comps. split; [done|].
  apply components_loop in Hl1 as (ts & Hall & Hts & _).
  apply inputs_loop in Hl2 as (cs & _ & _ & Hts2 & _).
  apply outputs_loop in Hl3 as (_ & Hts3 & _).
  by rewrite Hts3, Hts2, Hts.
Qed.

(** C9: a loop step for a name that is already expected changes nothing,
    and the expected outputs of the returned pipeline hold each name of the
    definition's [outputs] sequence, and no other, exactly once. *)
Theorem expected_outputs_registered_once (self : Builder) (bad_yaml verbose : bool) :
  (∀ (o : string) (q : pipeline.Pipeline Task),
     o ∈ pipeline.expected_outputs q → add_pipeline_output (Str o) q = mret q)
  ∧ (∀ p : pipeline.Pipeline Task,
       outcome (build_pipeline self bad_yaml verbose) = inr p →
       NoDup (pipeline.expected_outputs p)
       ∧ ∃ outputs : tree,
           declared self bad_yaml "outputs" = inr outputs
           ∧ ∀ o, o ∈ pipeline.expected_outputs p ↔ Str o ∈ iter outputs).
Proof.
  split; [apply add_pipeline_output_present|]. intros p.
  destruct (build_pipeline self bad_yaml verbose) as [l r] eqn:Hrun. simpl.
  intros ->. apply build_pipeline_success in Hrun
    as (pname & comps & ins & outs & l1 & l2 & l3 & p1 & p2
        & _ & _ & _ & Houts & Hl1 & Hl2 & Hl3 & _).
  apply components_loop in Hl1 as (ts & _ & _ & _ & _ & Ho1 & _).
  apply inputs_loop in Hl2 as (cs & _ & _ & _ & _ & Ho2 & _).
  apply outputs_loop in Hl3 as (_ & _ & _ & _ & Hnd & Hin).
  rewrite Ho2, Ho1 in Hnd, Hin. simpl in Hnd, Hin. split.
  - apply Hnd. constructor.
  - exists outs. split; [done|]. intros o. rewrite Hin. split; [|by right].
    intros [Hnil|?]; [|done]. by apply elem_of_nil in Hnil.
Qed.

(** C10: the [verbose] flag only adds the printed line: with and without it
    the run raises the same error or returns the same pipeline, after the
    same calls. *)
Theorem verbose_only_prints (self : Builder) (bad_yaml : bool) :
  outcome (build_pipeline self bad_yaml true)
  = outcome (build_pipeline self bad_yaml false)
  ∧ log (build_pipeline self bad_yaml true)
    = Printed "Building pipeline..." :: log (build_pipeline self bad_yaml false)
  ∧ filter (λ ev, is_print ev = false) (log (build_pipeline self bad_yaml true))
    = filter (λ ev, is_print ev = false) (log (build_pipeline self bad_yaml false)).
Proof.
  destruct (build_pipeline_announced self bad_yaml) as [k Hk].
  rewrite !Hk. split_and!; reflexivity.
Qed.

(** *** Runs that reach the loop over the declared inputs *)

Lemma constructed_app (l1 l2 : list event) :
  constructed (l1 ++ l2) = constructed l1 ++ constructed l2.
Proof.
  induction l1 as [|[] l1 IH]; simpl; try done. by rewrite IH.
Qed.

Lemma constructed_map (cs : list consumable.Consumable) :
  constructed (map Constructed cs) = cs.
Proof. induction cs as [|c cs IH]; simpl; [done|by rewrite IH]. Qed.

Lemma constructed_Forall (Q : consumable.Consumable → Prop) (l : list event) :
  Forall (λ ev, ∀ c, ev = Constructed c → Q c) l → Forall Q (constructed l).
Proof.
  induction 1 as [|ev l Hev _ IH]; simpl; [constructor|].
  destruct ev; try done. constructor; [by apply Hev|done].
Qed.

Lemma supplied_external (self : Builder) (i : tree) (c : consumable.Consumable) :
  supplied self i c →
  i = Str (consumable.name c)
  ∧ consumable.parent_task_name c = ""
  ∧ consumable.full_name c = consumable.name c
  ∧ command_line_inputs self !! consumable.name c = Some (consumable.content c).
Proof. by intros (k & v & -> & Hk & ->). Qed.

Lemma supplied_functional (self : Builder) (i1 i2 : tree)
    (c1 c2 : consumable.Consumable) :
  supplied self i1 c1 → supplied self i2 c2 →
  consumable.name c1 = consumable.name c2 → c1 = c2.
Proof.
  intros (k1 & v1 & -> & Hk1 & ->) (k2 & v2 & -> & Hk2 & ->). simpl. intros ->.
  congruence.
Qed.

Lemma with_inputs_Forall (P : string → consumable.Consumable → Prop)
    (cs : list consumable.Consumable) (m : gmap string consumable.Consumable) :
  map_Forall P m → Forall (λ c, P (consumable.name c) c) cs →
  map_Forall P (with_inputs cs m).
Proof.
  intros Hm Hcs. revert m Hm. induction Hcs as [|c cs Hc _ IH]; intros m Hm; [done|].
  simpl. apply IH. by apply map_Forall_insert_2.
Qed.

Lemma with_inputs_lookup (cs : list consumable.Consumable)
    (m : gmap string consumable.Consumable) (k : string) (c : consumable.Consumable) :
  (∀ c1 c2, c1 ∈ cs → c2 ∈ cs → consumable.name c1 = consumable.name c2 → c1 = c2) →
  with_inputs cs m !! k = Some c
  ↔ (c ∈ cs ∧ consumable.name c = k)
    ∨ ((k ∉ map consumable.name cs) ∧ m !! k = Some c).
Proof.
  revert m. induction cs as [|c0 cs IH]; intros m Hfun; simpl.
  - split.
    + intros Hk. right. split; [apply not_elem_of_nil|done].
    + intros [[Hin _]|[_ ?]]; [by apply elem_of_nil in Hin|done].
  - rewrite IH by (intros c1 c2 ? ?; apply Hfun; by right).
    rewrite !elem_of_cons, lookup_insert. split.
    + intros [[Hin Hn]|[Hnin Hk]]; [left; auto|].
      case_decide as Hc0; [left|right].
      * injection Hk as ->. auto.
      * split; [|done]. intros [?|?]; congruence.
    + intros [[[->|Hin] Hn]|[Hnin Hk]].
      * destruct (decide (k ∈ map consumable.name cs)) as [Hk|Hk].
        -- apply list_elem_of_fmap in Hk as (c' & Hn' & Hc'). left.
           assert (c0 = c') as -> by (apply Hfun; [by left|by right|congruence]).
           done.
        -- right. split; [done|]. by rewrite decide_True.
      * left. auto.
      * right. split; [intros ?; apply Hnin; by right|].
        rewrite decide_False; [done|]. intros Heq. apply Hnin. by left.
Qed.

Lemma components_loop_spawns (bad_yaml : bool) (components : list tree)
    (ts : list Task) (p : pipeline.Pipeline Task) :
  Forall2 (spawned_from bad_yaml) components ts →
  ∃ l : list event,
    for_each components (add_component bad_yaml) p
    = (l, inr (pipeline.mkPipeline (pipeline.name p) (pipeline.tasks p ++ ts)
                 (pipeline.external_inputs p) (pipeline.expected_outputs p))).
Proof.
  intros Hall. revert p.
  induction Hall as [|c t cs ts (c_name & v & d & -> & Hd & Hsub & Hsp) _ IH];
    intros p.
  - exists []. simpl. rewrite app_nil_r. by destruct p.
  - destruct (IH (pipeline.add_task t p)) as [l Hl]. exists (Spawned c_name d :: l).
    simpl. rewrite (add_component_spawns _ _ _ d), Hsp by done.
    rewrite bind_log_outcome. simpl. rewrite Hl. simpl. by rewrite <- app_assoc.
Qed.

Lemma inputs_loop_absent (self : Builder) (pre : list string) (k : string)
    (post : list tree) (p : pipeline.Pipeline Task) :
  Forall (λ n, is_Some (command_line_inputs self !! n)) pre →
  command_line_inputs self !! k = None →
  outcome (for_each (map Str pre ++ Str k :: post) (add_pipeline_input self) p)
  = inl (PipelineParsingError (not_found_message k)).
Proof.
  intros Hpre Hk. revert p. induction Hpre as [|n pre [v Hn] _ IH]; intros p; simpl.
  - by rewrite add_pipeline_input_absent.
  - rewrite (add_pipeline_input_present _ _ v) by done.
    rewrite bind_log_outcome. simpl. apply IH.
Qed.

Lemma build_pipeline_inputs_error (self : Builder) (bad_yaml verbose : bool)
    (c : list (string * tree)) (pname comps ins : tree) (ts : list Task) (e : exn) :
  pipeline_content_of self bad_yaml = inr (Map c) →
  utils.is_subset_of ["name"; "inputs"; "outputs"; "components"] (map fst c) = true →
  lookup "name" c = Some pname →
  lookup "components" c = Some comps →
  lookup "inputs" c = Some ins →
  Forall2 (spawned_from bad_yaml) (iter comps) ts →
  (∀ p : pipeline.Pipeline Task,
     outcome (for_each (iter ins) (add_pipeline_input self) p) = inl e) →
  outcome (build_pipeline self bad_yaml verbose) = inl e.
Proof.
  intros Hc Hsub Hn Hcs Hi Hts He.
  destruct (components_loop_spawns bad_yaml (iter comps) ts (pipeline.__init__ pname) Hts)
    as [l1 Hl1].
  unfold pipeline_builder.build_pipeline.
  rewrite announce_bind, Hc, lift_bind.
  change (keys (Map c)) with (inr (B:=list string) (A:=exn) (map fst c)).
  rewrite lift_bind, Hsub. simpl negb. cbv iota. unfold getitem.
  rewrite Hn, lift_bind, Hcs, lift_bind, bind_log_outcome, Hl1.
  cbn [outcome log fst snd]. rewrite Hi, lift_bind, bind_log_outcome, He.
  reflexivity.
Qed.

Lemma supplied_all (self : Builder) (inputs : list tree)
    (cs : list consumable.Consumable) (c : consumable.Consumable) :
  Forall2 (supplied self) inputs cs → c ∈ cs → ∃ i, i ∈ inputs ∧ supplied self i c.
Proof.
  induction 1 as [|i c' inputs' cs' Hc _ IH]; intros Hin.
  - by apply elem_of_nil in Hin.
  - apply elem_of_cons in Hin as [->|Hin].
    + exists i. split; [left|done].
    + destruct (IH Hin) as (i' & ? & ?). exists i'. split; [by right|done].
Qed.

(** C8, amended: when the definition has its four keys, every component
    yields a task, and the [inputs] sequence reaches a name without a value
    on the command line after names that have one, the builder raises the
    [PipelineParsingError] that names it.  Whenever a pipeline is returned,
    every declared input is a name with a supplied value, the run has
    constructed one Consumable for each, in order, with that value as its
    content, and the external inputs of the pipeline are exactly those. *)
Theorem declared_inputs_need_values (self : Builder) (bad_yaml verbose : bool) :
  (∀ (pname comps ins outs : tree) (ts : list Task) (pre : list string)
     (k : string) (post : list tree),
     declared self bad_yaml "name" = inr pname →
     declared self bad_yaml "components" = inr comps →
     declared self bad_yaml "inputs" = inr ins →
     declared self bad_yaml "outputs" = inr outs →
     Forall2 (spawned_from bad_yaml) (iter comps) ts →
     iter ins = map Str pre ++ Str k :: post →
     Forall (λ n, is_Some (command_line_inputs self !! n)) pre →
     command_line_inputs self !! k = None →
     outcome (build_pipeline self bad_yaml verbose)
     = inl (PipelineParsingError (not_found_message k)))
  ∧ (∀ p : pipeline.Pipeline Task,
       outcome (build_pipeline self bad_yaml verbose) = inr p →
       ∃ (ins : tree) (cs : list consumable.Consumable),
         declared self bad_yaml "inputs" = inr ins
         ∧ Forall2 (supplied self) (iter ins) cs
         ∧ constructed (log (build_pipeline self bad_yaml verbose)) = cs
         ∧ ∀ k c, pipeline.external_inputs p !! k = Some c
                  ↔ c ∈ cs ∧ consumable.name c = k).
Proof.
  split.
  - intros pname comps ins outs ts pre k post Hn Hcs Hi Ho Hts Hiter Hpre Hk.
    apply declared_inr in Hn as (c & Hc & Hn).
    apply declared_inr in Hcs as (c' & Hc' & Hcs).
    rewrite Hc in Hc'. injection Hc' as <-.
    apply declared_inr in Hi as (c' & Hc' & Hi).
    rewrite Hc in Hc'. injection Hc' as <-.
    apply declared_inr in Ho as (c' & Hc' & Ho).
    rewrite Hc in Hc'. injection Hc' as <-.
    apply (build_pipeline_inputs_error _ _ _ c pname comps ins ts); try done.
    + apply is_subset_of_spec. intros key Hkey.
      repeat (apply elem_of_cons in Hkey as [->|Hkey]; [by eapply lookup_keys|]).
      by apply elem_of_nil in Hkey.
    + intros p. rewrite Hiter. by apply inputs_loop_absent.
  - intros p. destruct (build_pipeline self bad_yaml verbose) as [l r] eqn:Hrun.
    simpl. intros ->. apply build_pipeline_success in Hrun
      as (pname & comps & ins & outs & l1 & l2 & l3 & p1 & p2
          & _ & _ & Hi & _ & Hl1 & Hl2 & Hl3 & ->).
    apply components_loop in Hl1 as (ts & _ & _ & _ & He1 & _ & _ & Hco1).
    apply inputs_loop in Hl2 as (cs & Hall & -> & _ & _ & _ & He2).
    apply outputs_loop in Hl3 as (-> & _ & _ & He3 & _).
    exists ins, cs. split_and!; try done.
    + rewrite !constructed_app, Hco1, constructed_map.
      destruct verbose; simpl; by rewrite app_nil_r.
    + intros k c. rewrite He3, He2, He1. simpl. rewrite with_inputs_lookup.
      * rewrite lookup_empty. split; [intros [?|[_ ?]]; done|by left].
      * intros c1 c2 (i1 & _ & H1)%(supplied_all _ _ _ _ Hall)
          (i2 & _ & H2)%(supplied_all _ _ _ _ Hall).
        by eapply supplied_functional.
Qed.

(** C4 at a definition whose only component is a list of length one, which
    is not a mapping with exactly one key: the length check lets it through,
    and the run ends with the interpreter's [AttributeError] where the
    specification, like the message of the check, has
    [PipelineParsingError]. *)
Theorem list_component_attribute_error (verbose : bool) :
  outcome (build_pipeline (mkBuilder examples.list_component ∅) false verbose)
  = inl (AttributeError "'list' object has no attribute 'keys'")
  ∧ log (build_pipeline (mkBuilder examples.list_component ∅) false verbose)
    = announcement verbose.
Proof.
  destruct (build_pipeline_announced (mkBuilder examples.list_component ∅) false)
    as [k Hk].
  rewrite Hk. pose proof (Hk false) as Hrun. simpl in Hrun.
  unfold pipeline_builder.build_pipeline in Hrun.
  rewrite ret_bind, lift_bind in Hrun. simpl in Hrun.
  injection Hrun as Hlog Hout. rewrite <- Hlog, <- Hout. simpl.
  by rewrite app_nil_r.
Qed.

End builder_facts.

(** ** Graph resolution *)

Section resolution_facts.
Import py pipeline.

Lemma build_table_lookup (entries : list (string * producer))
    (t0 table : gmap string producer) :
  build_table entries t0 = inr table →
  (∀ fn q, t0 !! fn = Some q → table !! fn = Some q)
  ∧ (∀ fn q, (fn, q) ∈ entries → table !! fn = Some q).
Proof.
  revert t0. induction entries as [|[fn q] entries IH]; intros t0; simpl.
  - intros [= ->]. split; [done|]. intros fn q Hin. by apply elem_of_nil in Hin.
  - destruct (t0 !! fn) eqn:Hfn; [discriminate|].
    intros (Hkeep & Hnew)%IH. split.
    + intros fn' q' Hq'. apply Hkeep. rewrite lookup_insert_ne; [done|congruence].
    + intros fn' q' [[= -> ->]|Hin]%elem_of_cons; [|by apply Hnew].
      apply Hkeep, lookup_insert_eq.
Qed.

Lemma producers_of_task (self : Pipeline pipeline_task.Task)
    (t : pipeline_task.Task) (o : string) :
  t ∈ tasks self → o ∈ pipeline_task.declared_outputs t →
  (produced_name t o, ByTask (pipeline_task.name t)) ∈ producers self.
Proof.
  intros Ht Ho. unfold producers. apply elem_of_app. right.
  apply list_elem_of_In, in_flat_map. exists t. split; [by apply list_elem_of_In|].
  apply list_elem_of_In, list_elem_of_fmap. by exists o.
Qed.

Lemma references_dependency (self : Pipeline pipeline_task.Task)
    (table : gmap string producer) (x y : pipeline_task.Task) :
  build_table (producers self) ∅ = inr table →
  y ∈ tasks self → references x y →
  pipeline_task.name y ∈ dependencies table x.
Proof.
  intros Htable Hy (param & o & Href & Ho).
  apply build_table_lookup in Htable as [_ Hnew].
  pose proof (Hnew _ _ (producers_of_task self y o Hy Ho)) as Hlook.
  unfold dependencies. apply list_elem_of_omap. exists (param, produced_name y o).
  split; [done|]. simpl. by rewrite Hlook.
Qed.

Lemma not_ready (table : gmap string producer) (done : list pipeline_task.Task)
    (t : pipeline_task.Task) (n : string) :
  n ∈ dependencies table t → n ∉ map pipeline_task.name done →
  ready table done t = false.
Proof.
  intros Hdep Hn. unfold ready. apply not_true_is_false. intros Hall.
  rewrite forallb_forall in Hall. apply list_elem_of_In, Hall in Hdep.
  by apply bool_decide_eq_true in Hdep.
Qed.

Lemma pick_Some (table : gmap string producer) (done pending rest : list pipeline_task.Task)
    (t : pipeline_task.Task) :
  pick table done pending = Some (t, rest) →
  ready table done t = true
  ∧ ∃ l1 l2, pending = l1 ++ t :: l2 ∧ rest = l1 ++ l2.
Proof.
  revert rest. induction pending as [|t0 pending IH]; intros rest; simpl; [done|].
  destruct (ready table done t0) eqn:Hready.
  - intros [= -> ->]. split; [done|]. by exists [], rest.
  - destruct (pick table done pending) as [[t' rest']|]; [|done].
    intros [= -> <-]. destruct (IH rest' eq_refl) as (Hr & l1 & l2 & -> & ->).
    split; [done|]. by exists (t0 :: l1), l2.
Qed.

(** Two tasks that depend on each other both stay pending, whatever is
    picked. *)
Lemma topo_step_waiting (table : gmap string producer) (x y : pipeline_task.Task)
    (st : list pipeline_task.Task * list pipeline_task.Task) :
  pipeline_task.name y ∈ dependencies table x →
  pipeline_task.name x ∈ dependencies table y →
  NoDup (map pipeline_task.name st.2) ∧ x ∈ st.2 ∧ y ∈ st.2
  ∧ (pipeline_task.name x ∉ map pipeline_task.name st.1)
  ∧ (pipeline_task.name y ∉ map pipeline_task.name st.1) →
  NoDup (map pipeline_task.name (topo_step table st).2)
  ∧ x ∈ (topo_step table st).2 ∧ y ∈ (topo_step table st).2
  ∧ (pipeline_task.name x ∉ map pipeline_task.name (topo_step table st).1)
  ∧ (pipeline_task.name y ∉ map pipeline_task.name (topo_step table st).1).
Proof.
  intros Hxy Hyx (Hnd & Hx & Hy & Hdx & Hdy). destruct st as [done pending].
  unfold topo_step. simpl in *.
  destruct (pick table done pending) as [[t rest]|] eqn:Hpick; [|done]. simpl.
  apply pick_Some in Hpick as (Hready & l1 & l2 & -> & ->).
  assert (t ≠ x) as Htx.
  { intros ->. by rewrite (not_ready table done x _ Hxy Hdy) in Hready. }
  assert (t ≠ y) as Hty.
  { intros ->. by rewrite (not_ready table done y _ Hyx Hdx) in Hready. }
  assert (∀ z, z ≠ t → z ∈ l1 ++ t :: l2 → z ∈ l1 ++ l2) as Hrest.
  { intros z Hz. rewrite !elem_of_app, elem_of_cons. intros [?|[?|?]]; auto. done. }
  apply Hrest in Hx; [|done]. apply Hrest in Hy; [|done].
  rewrite map_app in Hnd. simpl in Hnd. rewrite <- Permutation_middle in Hnd.
  apply NoDup_cons in Hnd as [Hfresh Hnd]. rewrite <- map_app in Hfresh, Hnd.
  assert (∀ z, z ∈ l1 ++ l2 → pipeline_task.name z ∉ map pipeline_task.name done →
               pipeline_task.name z ∉ map pipeline_task.name (done ++ [t])) as Hdone.
  { intros z Hz Hzd. rewrite map_app, elem_of_app. simpl.
    intros [?|Heq%list_elem_of_singleton]; [done|]. apply Hfresh.
    rewrite <- Heq. apply list_elem_of_fmap. by exists z. }
  split_and!; auto.
Qed.

Lemma topo_iter_waiting (table : gmap string producer) (x y : pipeline_task.Task)
    (ts : list pipeline_task.Task) (n : nat) :
  pipeline_task.name y ∈ dependencies table x →
  pipeline_task.name x ∈ dependencies table y →
  NoDup (map pipeline_task.name ts) → x ∈ ts → y ∈ ts →
  x ∈ (Nat.iter n (topo_step table) ([], ts)).2.
Proof.
  intros Hxy Hyx Hnd Hx Hy.
  enough (NoDup (map pipeline_task.name (Nat.iter n (topo_step table) ([], ts)).2)
          ∧ x ∈ (Nat.iter n (topo_step table) ([], ts)).2
          ∧ y ∈ (Nat.iter n (topo_step table) ([], ts)).2
          ∧ (pipeline_task.name x
             ∉ map pipeline_task.name (Nat.iter n (topo_step table) ([], ts)).1)
          ∧ (pipeline_task.name y
             ∉ map pipeline_task.name (Nat.iter n (topo_step table) ([], ts)).1))
    as (_ & ? & _); [done|].
  induction n as [|n IH]; simpl.
  - split_and!; try done; apply not_elem_of_nil.
  - by apply topo_step_waiting.
Qed.

Lemma topological_order_cyclic (table : gmap string producer)
    (x y : pipeline_task.Task) (ts : list pipeline_task.Task) :
  pipeline_task.name y ∈ dependencies table x →
  pipeline_task.name x ∈ dependencies table y →
  NoDup (map pipeline_task.name ts) → x ∈ ts → y ∈ ts →
  ∃ t : string, topological_order table ts = inl (CyclicDependency t).
Proof.
  intros Hxy Hyx Hnd Hx Hy.
  pose proof (topo_iter_waiting table x y ts (length ts) Hxy Hyx Hnd Hx Hy) as Hin.
  unfold topological_order.
  destruct (Nat.iter (length ts) (topo_step table) ([], ts)) as [done pending].
  simpl in Hin. destruct pending as [|t pending]; [by apply elem_of_nil in Hin|].
  by eexists.
Qed.

(** On the resolution of section 4.4, two tasks that reference each other's
    output, one of them with a further reference that nothing produces,
    make step 2 raise [UnresolvedReference] before any order is sought. *)
Lemma mutual_reference_unresolved :
  references (pipeline_task.mkTask "x" "noop" [("a", "y.o"); ("b", "raw")] ["o"])
    (pipeline_task.mkTask "y" "noop" [("a", "x.o")] ["o"])
  ∧ references (pipeline_task.mkTask "y" "noop" [("a", "x.o")] ["o"])
      (pipeline_task.mkTask "x" "noop" [("a", "y.o"); ("b", "raw")] ["o"])
  ∧ resolve examples.mutual_unresolved = inl (UnresolvedReference "x" "raw")
  ∧ ¬ (∃ t : string, resolve examples.mutual_unresolved = inl (CyclicDependency t)).
Proof.
  assert (resolve examples.mutual_unresolved = inl (UnresolvedReference "x" "raw"))
    as Hres by (vm_compute; reflexivity).
  split_and!.
  - exists "a", "o". split; [left|left].
  - exists "a", "o". split; [left|left].
  - exact Hres.
  - intros [t Ht]. rewrite Hres in Ht. discriminate Ht.
Qed.

(** On the resolution of section 4.4, in a pipeline whose task names are
    unique and in which two tasks reference each other's output, resolution
    never gives an order and a run executes no task; when moreover the
    lookup table builds and every reference resolves (steps 1 and 2 raise
    nothing), the error is [CyclicDependency]. *)
Theorem mutual_reference_rejected (self : Pipeline pipeline_task.Task)
    (x y : pipeline_task.Task) :
  NoDup (map pipeline_task.name (tasks self)) →
  x ∈ tasks self → y ∈ tasks self →
  references x y → references y x →
  ∃ e : exn,
    resolve self = inl e
    ∧ (∀ registry, run registry self = ([], inl e))
    ∧ (∀ table, resolvable self table → ∃ t : string, e = CyclicDependency t).
Proof.
  intros Hnd Hx Hy Hxy Hyx.
  assert (∀ e, resolve self = inl e → ∀ registry, run registry self = ([], inl e))
    as Hrun.
  { intros e He registry. unfold run. by rewrite He, lift_bind. }
  destruct (build_table (producers self) ∅) as [e|table] eqn:Htable.
  { assert (resolve self = inl e) as Hres
      by (unfold resolve; rewrite Htable; reflexivity).
    exists e. split_and!; [done|by apply Hrun|].
    intros table [Ht _]. congruence. }
  destruct (try_each (check_task table) (tasks self)) as [e|[]] eqn:Hcheck.
  { assert (resolve self = inl e) as Hres
      by (unfold resolve; rewrite Htable; simpl; rewrite Hcheck; reflexivity).
    exists e. split_and!; [done|by apply Hrun|].
    intros table' [Ht Hc]. congruence. }
  destruct (topological_order_cyclic table x y (tasks self)) as [t Ht]; try done.
  - by eapply references_dependency.
  - by eapply references_dependency.
  - assert (resolve self = inl (CyclicDependency t)) as Hres
      by (unfold resolve; rewrite Htable; simpl; rewrite Hcheck; exact Ht).
    exists (CyclicDependency t). split_and!; [done|by apply Hrun|].
    intros _ _. by exists t.
Qed.

Lemma mutual_reference_rejected_witness :
  ∃ e : exn,
    resolve examples.mutual = inl e
    ∧ (∀ registry, run registry examples.mutual = ([], inl e))
    ∧ (∀ table, resolvable examples.mutual table → ∃ t : string, e = CyclicDependency t).
Proof.
  apply (mutual_reference_rejected examples.mutual
           (pipeline_task.mkTask "x" "noop" [("a", "y.o")] ["o"])
           (pipeline_task.mkTask "y" "noop" [("a", "x.o")] ["o"])).
  - apply (bool_decide_unpack _). vm_compute. exact I.
  - left.
  - right. left.
  - exists "a", "o". split; [left|left].
  - exists "a", "o". split; [left|left].
Defined.

End resolution_facts.

(** ** The claims at the sample definitions *)

Section samples.
Import py effects pipeline_builder.

#[local] Abbreviation build :=
  (build_pipeline pipeline_task.spawn_task (λ t, inr t)).

(** The scenario of section 8 builds, resolves and runs. *)
Example scenario_builds :
  build examples.scenario_builder false true
  = ([Printed "Building pipeline...";
      Spawned "clean"
        [("runner", Str "noop"); ("inputs", Map [("raw", Str "raw")]);
         ("outputs", Seq [Str "clean_data"])];
      Spawned "train"
        [("runner", Str "noop"); ("inputs", Map [("data", Str "clean.clean_data")]);
         ("outputs", Seq [Str "model"])];
      Constructed (consumable.mkConsumable "x" "raw" "")],
     inr examples.scenario_pipeline).
Proof. vm_compute. reflexivity. Qed.

Example scenario_resolves :
  pipeline.resolve examples.scenario_pipeline = inr [examples.clean; examples.train].
Proof. vm_compute. reflexivity. Qed.

Example scenario_runs :
  log (pipeline.run examples.scenario_registry examples.scenario_pipeline)
  = [Executed "clean"; Executed "train"]
  ∧ ∃ available,
      outcome (pipeline.run examples.scenario_registry examples.scenario_pipeline)
      = inr available
      ∧ available !! "train.model"
        = Some (consumable.mkConsumable "x" "model" "train").
Proof. split; [vm_compute; reflexivity|]. eexists. split; vm_compute; reflexivity. Qed.

Example mutual_runs_nothing :
  pipeline.run examples.scenario_registry examples.mutual
  = ([], inl (CyclicDependency "x")).
Proof. vm_compute. reflexivity. Qed.

Lemma structural_failure_before_tasks_witness :
  (∃ message : string,
     outcome (build (mkBuilder examples.incomplete ∅) false true)
     = inl (PipelineParsingError message))
  ∧ log (build (mkBuilder examples.incomplete ∅) false true) = announcement true.
Proof.
  apply (structural_failure_before_tasks pipeline_task.spawn_task (λ t, inr t)
           (mkBuilder examples.incomplete ∅) false true
           [("pipeline",
             Map [("name", Str "demo"); ("inputs", Seq []); ("outputs", Seq [])])]).
  - reflexivity.
  - right. right. eexists _, _, "components". split_and!.
    + reflexivity.
    + reflexivity.
    + repeat constructor.
    + apply (bool_decide_unpack _). vm_compute. exact I.
Defined.

Lemma tasks_in_declaration_order_witness :
  ∃ components : tree,
    declared (λ t, inr t) examples.scenario_builder false "components" = inr components
    ∧ Forall2 (spawned_from pipeline_task.spawn_task (λ t, inr t) false)
        (iter components) [examples.clean; examples.train].
Proof.
  apply (tasks_in_declaration_order pipeline_task.spawn_task (λ t, inr t)
           examples.scenario_builder false true examples.scenario_pipeline).
  vm_compute. reflexivity.
Defined.

Lemma expected_outputs_registered_once_witness :
  add_pipeline_output (Str "train.model") examples.scenario_pipeline
  = mret examples.scenario_pipeline
  ∧ NoDup ["clean.clean_data"]
  ∧ ∃ outputs : tree,
      declared (λ t, inr t)
        (mkBuilder examples.repeated_output {["raw" := "x"]}) false "outputs"
      = inr outputs
      ∧ ∀ o, o ∈ ["clean.clean_data"] ↔ Str o ∈ iter outputs.
Proof.
  destruct (expected_outputs_registered_once pipeline_task.spawn_task (λ t, inr t)
              (mkBuilder examples.repeated_output {["raw" := "x"]}) false false)
    as [Hstep Hreturned].
  split.
  - apply Hstep. left.
  - apply (Hreturned
             (pipeline.mkPipeline (Str "demo")
                [pipeline_task.mkTask "clean" "noop" [("raw", "raw")] ["clean_data"]]
                {["raw" := consumable.mkConsumable "x" "raw" ""]}
                ["clean.clean_data"])).
    vm_compute. reflexivity.
Defined.

(** C8, as the specification words it, fails: with an input that has no
    value on the command line and a component of two keys, the error is the
    one of the component, which names no input. *)
Lemma unsupplied_input_not_named :
  declared (λ t, inr t) (mkBuilder examples.two_keys ∅) false "inputs"
  = inr (Seq [Str "raw"])
  ∧ (∅ : gmap string string) !! "raw" = None
  ∧ outcome (build (mkBuilder examples.two_keys ∅) false false)
    = inl (PipelineParsingError component_root_message)
  ∧ ¬ (∃ k : string,
         outcome (build (mkBuilder examples.two_keys ∅) false false)
         = inl (PipelineParsingError (not_found_message k))).
Proof.
  assert (outcome (build (mkBuilder examples.two_keys ∅) false false)
          = inl (PipelineParsingError component_root_message)) as Hrun
    by (vm_compute; reflexivity).
  split_and!; [reflexivity|reflexivity|exact Hrun|].
  intros [k Hk]. rewrite Hrun in Hk. discriminate Hk.
Qed.

Lemma declared_inputs_need_values_witness :
  outcome (build examples.unsupplied_builder false false)
  = inl (PipelineParsingError (not_found_message "raw"))
  ∧ ∃ (ins : tree) (cs : list consumable.Consumable),
      declared (λ t, inr t) examples.scenario_builder false "inputs" = inr ins
      ∧ Forall2 (supplied examples.scenario_builder) (iter ins) cs
      ∧ constructed (log (build examples.scenario_builder false false)) = cs
      ∧ ∀ k c, pipeline.external_inputs examples.scenario_pipeline !! k = Some c
               ↔ c ∈ cs ∧ consumable.name c = k.
Proof.
  split.
  - apply (proj1 (declared_inputs_need_values pipeline_task.spawn_task (λ t, inr t)
                    examples.unsupplied_builder false false)
             (Str "demo")
             (Seq [examples.component "clean" "noop" [("raw", "raw")] ["clean_data"];
                   examples.component "train" "noop" [("data", "clean.clean_data")]
                     ["model"]])
             (Seq [Str "raw"]) (Seq [Str "train.model"])
             [examples.clean; examples.train] [] "raw" []).
    + reflexivity.
    + reflexivity.
    + reflexivity.
    + reflexivity.
    + repeat constructor.
      * eexists _, _, _. split_and!; reflexivity.
      * eexists _, _, _. split_and!; reflexivity.
    + reflexivity.
    + constructor.
    + reflexivity.
  - apply (proj2 (declared_inputs_need_values pipeline_task.spawn_task (λ t, inr t)
                    examples.scenario_builder false false)).
    vm_compute. reflexivity.
Defined.

End samples.

(** * Further properties of the builder *)

Section bind_facts.
Import py effects.
Context {A B : Type}.

Lemma bind_ext (m : M A) (f g : A → M B) :
  (∀ a, outcome m = inr a → f a = g a) → m ≫= f = m ≫= g.
Proof.
  intros Hfg. rewrite !bind_log_outcome.
  destruct (outcome m) as [e|a] eqn:Hm; [done|]. by rewrite Hfg.
Qed.

Lemma bind_ret (m : M A) : m ≫= mret = m.
Proof.
  rewrite bind_log_outcome. destruct m as [l [e|a]]; simpl; [done|].
  by rewrite app_nil_r.
Qed.

End bind_facts.

Section loop_facts.
Import py effects.
Context {A S : Type}.

Lemma for_each_app (xs ys : list A) (body : A → S → M S) (s : S) :
  for_each (xs ++ ys) body s = for_each xs body s ≫= for_each ys body.
Proof.
  revert s. induction xs as [|x xs IH]; intros s.
  - symmetry. apply (ret_bind s (for_each ys body)).
  - cbn [for_each app]. rewrite !bind_log_outcome.
    destruct (outcome (body x s)) as [e|s']; [done|].
    rewrite IH, !bind_log_outcome. cbn [log outcome fst snd].
    destruct (outcome (for_each xs body s')); simpl; by rewrite ?app_assoc.
Qed.

Lemma for_each_ext (xs : list A) (body1 body2 : A → S → M S) (s : S) :
  (∀ x s', x ∈ xs → body1 x s' = body2 x s') →
  for_each xs body1 s = for_each xs body2 s.
Proof.
  revert s. induction xs as [|x xs IH]; intros s Hbody; cbn [for_each]; [done|].
  rewrite Hbody by left. apply bind_ext. intros s' _. apply IH.
  intros y s'' Hy. apply Hbody. by right.
Qed.

End loop_facts.

(** ** The state of a [Builder] *)

Section builder_state.
Import py pipeline_builder.


End builder_state.

(** ** Runs that stop before the loops *)

Lemma subset_of_keys (required present : list string) :
  utils.is_subset_of required present = true ↔ ∀ k, k ∈ required → k ∈ present.
Proof.
  unfold utils.is_subset_of. induction required as [|r required IH]; simpl.
  - split; [|done]. intros _ k Hk. by apply elem_of_nil in Hk.
  - rewrite andb_true_iff, IH, bool_decide_eq_true. split.
    + intros [Hr Hrest] k [->|Hk]%elem_of_cons; auto.
    + intros Hall. split; [|intros k Hk]; apply Hall; [left|by right].
Qed.

Lemma not_subset_of_keys (required present : list string) (k : string) :
  k ∈ required → k ∉ present → utils.is_subset_of required present = false.
Proof.
  intros Hk Hnk. apply not_true_is_false. rewrite subset_of_keys.
  intros Hall. by apply Hnk, Hall.
Qed.

Section early_errors.
Import py effects pipeline_builder.
Context {Task : Type}.
Variable spawn_task : string → list (string * tree) → exn + Task.
Variable list_of_dicts_to_dict : tree → exn + tree.

#[local] Abbreviation build_pipeline :=
  (build_pipeline spawn_task list_of_dicts_to_dict).
#[local] Abbreviation pipeline_content_of :=
  (pipeline_content_of list_of_dicts_to_dict).

Lemma missing_definition (self : Builder) (bad_yaml : bool)
    (m : list (string * tree)) :
  parsed_yaml self = Map m →
  truthy_opt (lookup "pipeline" m) = false →
  pipeline_content_of self bad_yaml
  = inl (PipelineParsingError "Missing pipeline definition.").
Proof.
  intros Hm Hfalsy. unfold pipeline_builder.pipeline_content_of.
  rewrite Hm. simpl. by rewrite Hfalsy.
Qed.

Lemma present_definition (self : Builder) (bad_yaml : bool)
    (m : list (string * tree)) (entry : tree) :
  parsed_yaml self = Map m →
  lookup "pipeline" m = Some entry →
  truthy entry = true →
  pipeline_content_of self bad_yaml
  = if bad_yaml then list_of_dicts_to_dict entry else inr entry.
Proof.
  intros Hm Hentry Htruthy. unfold pipeline_builder.pipeline_content_of.
  rewrite Hm. simpl. rewrite Hentry. simpl. by rewrite Htruthy.
Qed.

(** X2: a builder into which no definition was loaded raises
    [PipelineParsingError] with the message [Missing pipeline definition.],
    whatever was passed as command line inputs and whatever the flags, after
    nothing but the announcement. *)
Theorem fresh_builder_has_no_definition (inputs : gmap string string)
    (bad_yaml verbose : bool) :
  build_pipeline (pass_command_line_inputs inputs __init__) bad_yaml verbose
  = (announcement verbose,
     inl (PipelineParsingError "Missing pipeline definition.")).
Proof.
  apply build_pipeline_no_content. by apply (missing_definition _ _ []).
Qed.

(** X3: when the definition mapping has no [pipeline] entry, or one that is
    falsy (an empty string, list or mapping), the run prints its announcement
    (if verbose) and raises [PipelineParsingError] with the message
    [Missing pipeline definition.]; [list_of_dicts_to_dict] is not
    reached. *)
Theorem missing_definition_message (self : Builder) (bad_yaml verbose : bool)
    (m : list (string * tree)) :
  parsed_yaml self = Map m →
  (lookup "pipeline" m = None
   ∨ ∃ entry : tree, lookup "pipeline" m = Some entry ∧ truthy entry = false) →
  build_pipeline self bad_yaml verbose
  = (announcement verbose,
     inl (PipelineParsingError "Missing pipeline definition.")).
Proof.
  intros Hm Hentry. apply build_pipeline_no_content.
  apply (missing_definition _ _ m Hm).
  destruct Hentry as [->|(entry & -> & Hfalsy)]; [reflexivity|exact Hfalsy].
Qed.

(** X4: when the [pipeline] entry is there and truthy, and its content is a
    mapping without one of the four keys, the run raises
    [PipelineParsingError] with the message [Pipeline missing key
    attributes.], after nothing but the announcement. *)
Theorem missing_key_message (self : Builder) (bad_yaml verbose : bool)
    (m c : list (string * tree)) (entry : tree) (k : string) :
  parsed_yaml self = Map m →
  lookup "pipeline" m = Some entry →
  truthy entry = true →
  (if bad_yaml then list_of_dicts_to_dict entry else inr entry) = inr (Map c) →
  k ∈ ["name"; "inputs"; "outputs"; "components"] →
  k ∉ map fst c →
  build_pipeline self bad_yaml verbose
  = (announcement verbose,
     inl (PipelineParsingError "Pipeline missing key attributes.")).
Proof.
  intros Hm Hentry Htruthy Hcontent Hk Hnk.
  apply (build_pipeline_missing_key _ _ _ _ _ (Map c) (map fst c)).
  - by rewrite (present_definition _ _ m entry).
  - reflexivity.
  - by apply (not_subset_of_keys _ _ k).
Qed.

(** X5: when what was loaded is not a mapping at all (a YAML file holding a
    list or a bare string), the run ends with the interpreter's
    [AttributeError] for the missing [get], not with a
    [PipelineParsingError]. *)
Theorem definition_not_mapping (self : Builder) (bad_yaml verbose : bool) :
  (∀ m, parsed_yaml self ≠ Map m) →
  build_pipeline self bad_yaml verbose
  = (announcement verbose,
     inl (AttributeError
            ("'" +:+ type_name (parsed_yaml self)
             +:+ "' object has no attribute 'get'"))).
Proof.
  intros Hnot. apply build_pipeline_no_content.
  unfold pipeline_builder.pipeline_content_of.
  destruct (parsed_yaml self) as [s|l|m]; try reflexivity. by destruct (Hnot m).
Qed.

(** X6: without [bad_yaml], a [pipeline] entry that is a non-empty string or
    list makes the run end with the interpreter's [AttributeError] for the
    missing [keys], after nothing but the announcement. *)
Theorem content_not_mapping (self : Builder) (verbose : bool)
    (m : list (string * tree)) (entry : tree) :
  parsed_yaml self = Map m →
  lookup "pipeline" m = Some entry →
  truthy entry = true →
  (∀ c, entry ≠ Map c) →
  build_pipeline self false verbose
  = (announcement verbose,
     inl (AttributeError
            ("'" +:+ type_name entry +:+ "' object has no attribute 'keys'"))).
Proof.
  intros Hm Hentry Htruthy Hnot.
  pose proof (present_definition self false m entry Hm Hentry Htruthy) as Hc.
  unfold pipeline_builder.build_pipeline.
  rewrite announce_bind, Hc, lift_bind.
  destruct entry as [s|l|c]; [| |by destruct (Hnot c)];
    rewrite lift_bind; simpl; by rewrite app_nil_r.
Qed.

End early_errors.

(** ** Runs that reach the loops *)

Section loops_facts.
Import py effects pipeline_builder loops.
Context {Task : Type}.
Variable spawn_task : string → list (string * tree) → exn + Task.
Variable list_of_dicts_to_dict : tree → exn + tree.

#[local] Abbreviation add_component :=
  (add_component spawn_task list_of_dicts_to_dict).
#[local] Abbreviation build_pipeline :=
  (build_pipeline spawn_task list_of_dicts_to_dict).
#[local] Abbreviation declared := (declared list_of_dicts_to_dict).
#[local] Abbreviation spawned_from :=
  (spawned_from spawn_task list_of_dicts_to_dict).
#[local] Abbreviation fill := (fill spawn_task list_of_dicts_to_dict).
#[local] Abbreviation called_for := (called_for list_of_dicts_to_dict).

Lemma declared_content (self : Builder) (bad_yaml : bool) (k : string) (v : tree) :
  declared self bad_yaml k = inr v →
  ∃ c, pipeline_builder.pipeline_content_of list_of_dicts_to_dict self bad_yaml
       = inr (Map c)
       ∧ lookup k c = Some v.
Proof.
  unfold pipeline_builder.declared.
  destruct (pipeline_builder.pipeline_content_of _ self bad_yaml) as [e|content];
    [discriminate|].
  simpl. destruct content as [s|l|c]; try discriminate. simpl.
  destruct (lookup k c) as [v'|] eqn:Hk; [|discriminate]. intros [= ->].
  by exists c.
Qed.

Lemma key_of_lookup (k : string) (v : tree) (m : list (string * tree)) :
  lookup k m = Some v → k ∈ map fst m.
Proof.
  induction m as [|[k' v'] m IH]; simpl; [done|].
  destruct (String.eqb_spec k k') as [->|Hne]; [left|]. intros H. right. auto.
Qed.

(** With its four keys declared, a run is its announcement followed by the
    three loops. *)
Lemma build_pipeline_fill (self : Builder) (bad_yaml verbose : bool)
    (pname comps ins outs : tree) :
  declared self bad_yaml "name" = inr pname →
  declared self bad_yaml "components" = inr comps →
  declared self bad_yaml "inputs" = inr ins →
  declared self bad_yaml "outputs" = inr outs →
  build_pipeline self bad_yaml verbose
  = (announcement verbose ++ log (fill self bad_yaml pname comps ins outs),
     outcome (fill self bad_yaml pname comps ins outs)).
Proof.
  intros (c & Hc & Hn)%declared_content (c1 & Hc1 & Hcs)%declared_content
    (c2 & Hc2 & Hi)%declared_content (c3 & Hc3 & Ho)%declared_content.
  rewrite Hc in Hc1, Hc2, Hc3.
  injection Hc1 as <-. injection Hc2 as <-. injection Hc3 as <-.
  assert (utils.is_subset_of ["name"; "inputs"; "outputs"; "components"] (map fst c)
          = true) as Hsub.
  { apply subset_of_keys. intros key Hkey.
    repeat (apply elem_of_cons in Hkey as [->|Hkey]; [by eapply key_of_lookup|]).
    by apply elem_of_nil in Hkey. }
  unfold pipeline_builder.build_pipeline.
  rewrite announce_bind, Hc, lift_bind.
  change (keys (Map c)) with (inr (B:=list string) (A:=exn) (map fst c)).
  rewrite lift_bind, Hsub. simpl negb. cbv iota. unfold getitem.
  rewrite Hn, lift_bind, Hcs, lift_bind, Hi, Ho.
  match goal with
  | |- (_ ++ log ?k, _) = _ =>
      assert (k = fill self bad_yaml pname comps ins outs) as ->; [|reflexivity]
  end.
  unfold loops.fill. apply bind_ext. intros p1 _.
  rewrite lift_bind. apply bind_ext. intros p2 _.
  rewrite lift_bind. apply bind_ret.
Qed.

Lemma components_calls (bad_yaml : bool) (components : list tree) (ts : list Task)
    (p : pipeline.Pipeline Task) :
  Forall2 (spawned_from bad_yaml) components ts →
  ∃ calls : list event,
    Forall2 (called_for bad_yaml) components calls
    ∧ for_each components (add_component bad_yaml) p
      = (calls,
         inr (pipeline.mkPipeline (pipeline.name p) (pipeline.tasks p ++ ts)
                (pipeline.external_inputs p) (pipeline.expected_outputs p))).
Proof.
  intros Hall. revert p.
  induction Hall as [|c t cs ts (c_name & v & d & -> & Hd & Hsub & Hsp) _ IH];
    intros p.
  - exists []. split; [constructor|]. simpl. rewrite app_nil_r. by destruct p.
  - destruct (IH (pipeline.add_task t p)) as (calls & Hcalls & Hrun).
    exists (Spawned c_name d :: calls). split.
    + constructor; [|done]. by exists c_name, v, d.
    + cbn [for_each].
      rewrite (add_component_spawns spawn_task list_of_dicts_to_dict _ _ _ d), Hsp
        by done.
      rewrite bind_log_outcome. cbn [log outcome fst snd]. rewrite Hrun.
      simpl. by rewrite <- app_assoc.
Qed.

Lemma inputs_supplied (self : Builder) (inputs : list tree)
    (cs : list consumable.Consumable) (p : pipeline.Pipeline Task) :
  Forall2 (supplied self) inputs cs →
  for_each inputs (add_pipeline_input self) p
  = (map Constructed cs, inr (foldl (λ q c, pipeline.add_input c q) p cs)).
Proof.
  intros Hall. revert p.
  induction Hall as [|i c inputs cs (k & v & -> & Hk & ->) _ IH]; intros p;
    [reflexivity|].
  cbn [for_each]. rewrite (add_pipeline_input_present _ _ v) by done.
  rewrite bind_log_outcome. cbn [log outcome fst snd]. by rewrite IH.
Qed.

Lemma supplied_names (self : Builder) (pre : list string) :
  Forall (λ n, is_Some (command_line_inputs self !! n)) pre →
  ∃ cs, Forall2 (supplied self) (map Str pre) cs.
Proof.
  induction 1 as [|n pre [v Hn] _ (cs & Hcs)]; [by exists []|].
  exists (consumable.mkConsumable v n "" :: cs). constructor; [|done].
  by exists n, v.
Qed.

Lemma add_pipeline_output_name (o : string) (p : pipeline.Pipeline Task) :
  add_pipeline_output (Str o) p
  = ([], inr (if bool_decide (o ∈ pipeline.expected_outputs p) then p
              else pipeline.mkPipeline (pipeline.name p) (pipeline.tasks p)
                     (pipeline.external_inputs p)
                     (pipeline.expected_outputs p ++ [o]))).
Proof.
  unfold add_pipeline_output, pipeline.expects, pipeline.add_output.
  simpl hashable. rewrite lift_bind.
  by destruct (bool_decide (o ∈ pipeline.expected_outputs p)).
Qed.

Lemma outputs_named (names : list string) (p : pipeline.Pipeline Task) :
  ∃ p' : pipeline.Pipeline Task,
    for_each (map Str names) add_pipeline_output p = ([], inr p')
    ∧ pipeline.tasks p' = pipeline.tasks p
    ∧ pipeline.name p' = pipeline.name p
    ∧ pipeline.external_inputs p' = pipeline.external_inputs p.
Proof.
  revert p. induction names as [|o names IH]; intros p; [by exists p|].
  cbn [for_each map]. rewrite add_pipeline_output_name, bind_log_outcome.
  cbn [log outcome fst snd].
  match goal with
  | |- context [for_each _ _ ?q] => destruct (IH q) as (p' & Hrun & Ht & Hn & He)
  end.
  exists p'. rewrite Hrun. split; [reflexivity|].
  by destruct (bool_decide (o ∈ pipeline.expected_outputs p)).
Qed.

Lemma outputs_are_names (outputs : list tree) (p p' : pipeline.Pipeline Task)
    (l : list event) :
  for_each outputs add_pipeline_output p = (l, inr p') →
  ∃ names : list string, outputs = map Str names.
Proof.
  revert p l. induction outputs as [|x outputs IH]; intros p l H; [by exists []|].
  cbn [for_each] in H. apply bind_success in H as (l1 & p1 & l2 & Hx & Hxs & ->).
  apply add_pipeline_output_success in Hx as (o & -> & _).
  apply IH in Hxs as [names ->]. by exists (o :: names).
Qed.

(** The loops when a component stops them: the factory has been called for
    the components before it, and for nothing else. *)
Lemma fill_component_error (self : Builder) (bad_yaml : bool)
    (pname comps ins outs : tree) (pre post : list tree) (c : tree)
    (ts : list Task) (lc : list event) (e : exn) :
  iter comps = pre ++ c :: post →
  Forall2 (spawned_from bad_yaml) pre ts →
  (∀ p, add_component bad_yaml c p = (lc, inl e)) →
  ∃ calls : list event,
    Forall2 (called_for bad_yaml) pre calls
    ∧ fill self bad_yaml pname comps ins outs = (calls ++ lc, inl e).
Proof.
  intros Hiter Hpre Hc.
  destruct (components_calls bad_yaml pre ts (pipeline.__init__ pname) Hpre)
    as (calls & Hcalls & Hrun).
  exists calls. split; [done|].
  assert (for_each (pre ++ c :: post) (add_component bad_yaml)
            (pipeline.__init__ pname) = (calls ++ lc, inl e)) as Hloop.
  { rewrite for_each_app, Hrun, bind_log_outcome. cbn [log outcome fst snd for_each].
    rewrite Hc, bind_log_outcome. reflexivity. }
  unfold loops.fill. rewrite Hiter, Hloop, bind_log_outcome. reflexivity.
Qed.

(** X7: when the definition has its four keys and the components sequence
    reaches, after components that yield tasks, one whose length is not one,
    the run raises [PipelineParsingError] with the component root message;
    before that it has printed its announcement and called the factory once
    for each earlier component, and it has done nothing else. *)
Theorem malformed_component_rejected (self : Builder) (bad_yaml verbose : bool)
    (pname comps ins outs : tree) (pre post : list tree) (c : tree)
    (ts : list Task) :
  declared self bad_yaml "name" = inr pname →
  declared self bad_yaml "components" = inr comps →
  declared self bad_yaml "inputs" = inr ins →
  declared self bad_yaml "outputs" = inr outs →
  iter comps = pre ++ c :: post →
  Forall2 (spawned_from bad_yaml) pre ts →
  len c ≠ 1 →
  ∃ calls : list event,
    Forall2 (called_for bad_yaml) pre calls
    ∧ build_pipeline self bad_yaml verbose
      = (announcement verbose ++ calls,
         inl (PipelineParsingError component_root_message)).
Proof.
  intros Hn Hcs Hi Ho Hiter Hpre Hlen.
  destruct (fill_component_error self bad_yaml pname comps ins outs pre post c ts []
              (PipelineParsingError component_root_message) Hiter Hpre)
    as (calls & Hcalls & Hfill).
  { intros p. by apply add_component_length. }
  exists calls. split; [done|].
  rewrite (build_pipeline_fill _ _ _ pname comps ins outs) by done.
  rewrite Hfill. simpl. by rewrite app_nil_r.
Qed.

(** X8: when the components sequence reaches, after components that yield
    tasks, a one-key mapping whose sections lack [runner], [inputs] or
    [outputs], the run raises the [PipelineParsingError] that names that
    component, without calling the factory for it. *)
Theorem incomplete_component_named (self : Builder) (bad_yaml verbose : bool)
    (pname comps ins outs : tree) (pre post : list tree) (ts : list Task)
    (c_name k : string) (v : tree) (d : list (string * tree)) :
  declared self bad_yaml "name" = inr pname →
  declared self bad_yaml "components" = inr comps →
  declared self bad_yaml "inputs" = inr ins →
  declared self bad_yaml "outputs" = inr outs →
  iter comps = pre ++ Map [(c_name, v)] :: post →
  Forall2 (spawned_from bad_yaml) pre ts →
  (if bad_yaml then list_of_dicts_to_dict v else inr v) = inr (Map d) →
  k ∈ ["runner"; "inputs"; "outputs"] →
  k ∉ map fst d →
  ∃ calls : list event,
    Forall2 (called_for bad_yaml) pre calls
    ∧ build_pipeline self bad_yaml verbose
      = (announcement verbose ++ calls,
         inl (PipelineParsingError
                ("Component " +:+ c_name +:+ " missing one of the key arguments!"))).
Proof.
  intros Hn Hcs Hi Ho Hiter Hpre Hd Hk Hnk.
  destruct (fill_component_error self bad_yaml pname comps ins outs pre post
              (Map [(c_name, v)]) ts []
              (PipelineParsingError
                 ("Component " +:+ c_name +:+ " missing one of the key arguments!"))
              Hiter Hpre)
    as (calls & Hcalls & Hfill).
  { intros p. apply (add_component_missing_section _ _ _ _ _ d); [done|].
    by apply (not_subset_of_keys _ _ k). }
  exists calls. split; [done|].
  rewrite (build_pipeline_fill _ _ _ pname comps ins outs) by done.
  rewrite Hfill. simpl. by rewrite app_nil_r.
Qed.

(** X9: an exception of the task factory is not caught: when the factory
    raises for a component that has its three sections, after components
    that yield tasks, the run ends with that very exception, the call being
    the last thing it did. *)
Theorem factory_error_propagates (self : Builder) (bad_yaml verbose : bool)
    (pname comps ins outs : tree) (pre post : list tree) (ts : list Task)
    (c_name : string) (v : tree) (d : list (string * tree)) (e : exn) :
  declared self bad_yaml "name" = inr pname →
  declared self bad_yaml "components" = inr comps →
  declared self bad_yaml "inputs" = inr ins →
  declared self bad_yaml "outputs" = inr outs →
  iter comps = pre ++ Map [(c_name, v)] :: post →
  Forall2 (spawned_from bad_yaml) pre ts →
  (if bad_yaml then list_of_dicts_to_dict v else inr v) = inr (Map d) →
  utils.is_subset_of ["runner"; "inputs"; "outputs"] (map fst d) = true →
  spawn_task c_name d = inl e →
  ∃ calls : list event,
    Forall2 (called_for bad_yaml) pre calls
    ∧ build_pipeline self bad_yaml verbose
      = (announcement verbose ++ calls ++ [Spawned c_name d], inl e).
Proof.
  intros Hn Hcs Hi Ho Hiter Hpre Hd Hsub Hsp.
  destruct (fill_component_error self bad_yaml pname comps ins outs pre post
              (Map [(c_name, v)]) ts [Spawned c_name d] e Hiter Hpre)
    as (calls & Hcalls & Hfill).
  { intros p. rewrite (add_component_spawns _ _ _ _ _ d) by done. by rewrite Hsp. }
  exists calls. split; [done|].
  rewrite (build_pipeline_fill _ _ _ pname comps ins outs) by done.
  by rewrite Hfill.
Qed.

(** X13: when every component yields a task and the inputs sequence
    reaches, after names that have a value, an entry that is not a string (a
    nested list or mapping), the membership test raises the interpreter's
    [TypeError] for an unhashable value; the Consumables of the names before
    it have been constructed. *)
Theorem non_name_input_type_error (self : Builder) (bad_yaml verbose : bool)
    (pname comps ins outs : tree) (ts : list Task) (pre : list string)
    (x : tree) (post : list tree) :
  declared self bad_yaml "name" = inr pname →
  declared self bad_yaml "components" = inr comps →
  declared self bad_yaml "inputs" = inr ins →
  declared self bad_yaml "outputs" = inr outs →
  Forall2 (spawned_from bad_yaml) (iter comps) ts →
  iter ins = map Str pre ++ x :: post →
  Forall (λ n, is_Some (command_line_inputs self !! n)) pre →
  (∀ s, x ≠ Str s) →
  ∃ (calls : list event) (cs : list consumable.Consumable),
    Forall2 (called_for bad_yaml) (iter comps) calls
    ∧ Forall2 (supplied self) (map Str pre) cs
    ∧ build_pipeline self bad_yaml verbose
      = (announcement verbose ++ calls ++ map Constructed cs,
         inl (TypeError ("unhashable type: '" +:+ type_name x +:+ "'"))).
Proof.
  intros Hn Hcs Hi Ho Hts Hiter Hpre Hx.
  destruct (components_calls bad_yaml (iter comps) ts (pipeline.__init__ pname) Hts)
    as (calls & Hcalls & Hrun).
  destruct (supplied_names self pre Hpre) as [cs Hsup].
  exists calls, cs. split_and!; try done.
  rewrite (build_pipeline_fill _ _ _ pname comps ins outs) by done.
  unfold loops.fill. rewrite Hrun, bind_log_outcome. cbn [log outcome fst snd].
  rewrite Hiter, for_each_app, (inputs_supplied _ _ cs) by done.
  rewrite (bind_log_outcome (map Constructed cs, _)). cbn [log outcome fst snd for_each].
  assert (∀ q : pipeline.Pipeline Task,
            add_pipeline_input self x q
            = ([], inl (TypeError ("unhashable type: '" +:+ type_name x +:+ "'"))))
    as Hbody.
  { intros q. destruct x as [s|l|m]; try reflexivity. by destruct (Hx s). }
  rewrite Hbody, !bind_log_outcome. cbn [log outcome fst snd].
  by rewrite !app_nil_r.
Qed.

(** The loops when nothing stops them. *)
Lemma fill_returns (self : Builder) (bad_yaml : bool)
    (pname comps ins outs : tree) (ts : list Task)
    (cs : list consumable.Consumable) (names : list string) :
  Forall2 (spawned_from bad_yaml) (iter comps) ts →
  Forall2 (supplied self) (iter ins) cs →
  iter outs = map Str names →
  ∃ (calls : list event) (p : pipeline.Pipeline Task),
    Forall2 (called_for bad_yaml) (iter comps) calls
    ∧ fill self bad_yaml pname comps ins outs
      = (calls ++ map Constructed cs, inr p)
    ∧ pipeline.tasks p = ts
    ∧ pipeline.name p = pname.
Proof.
  intros Hts Hcs Houts.
  destruct (components_calls bad_yaml (iter comps) ts (pipeline.__init__ pname) Hts)
    as (calls & Hcalls & Hrun).
  match type of Hrun with
  | _ = (_, inr ?q) =>
      destruct (outputs_named names (foldl (λ q' c, pipeline.add_input c q') q cs))
        as (p & Hout & Ht & Hn & _)
  end.
  exists calls, p. split; [done|]. split.
  - unfold loops.fill. rewrite Hrun, bind_log_outcome. cbn [log outcome fst snd].
    rewrite (inputs_supplied _ _ cs) by done.
    rewrite bind_log_outcome. cbn [log outcome fst snd].
    rewrite Houts, Hout. simpl. by rewrite app_nil_r.
  - rewrite Ht, Hn. clear. split.
    + induction cs as [|c cs IH] using rev_ind; [reflexivity|].
      by rewrite foldl_app.
    + induction cs as [|c cs IH] using rev_ind; [reflexivity|].
      by rewrite foldl_app.
Qed.

Lemma returned_conditions (self : Builder) (bad_yaml verbose : bool)
    (p : pipeline.Pipeline Task) :
  outcome (build_pipeline self bad_yaml verbose) = inr p →
  ∃ (pname comps ins outs : tree) (ts : list Task)
    (cs : list consumable.Consumable) (names : list string),
    declared self bad_yaml "name" = inr pname
    ∧ declared self bad_yaml "components" = inr comps
    ∧ declared self bad_yaml "inputs" = inr ins
    ∧ declared self bad_yaml "outputs" = inr outs
    ∧ Forall2 (spawned_from bad_yaml) (iter comps) ts
    ∧ Forall2 (supplied self) (iter ins) cs
    ∧ iter outs = map Str names.
Proof.
  intros Hp.
  destruct (build_pipeline self bad_yaml verbose) as [l r] eqn:Hrun.
  simpl in Hp. subst r.
  apply (build_pipeline_success spawn_task list_of_dicts_to_dict) in Hrun
    as (pname & comps & ins & outs & l1 & l2 & l3 & p1 & p2
        & Hn & Hcs & Hi & Ho & Hl1 & Hl2 & Hl3 & _).
  apply components_loop in Hl1 as (ts & Hts & _).
  apply inputs_loop in Hl2 as (cs & Hsup & _).
  apply outputs_are_names in Hl3 as [names Hnames].
  by exists pname, comps, ins, outs, ts, cs, names.
Qed.

(** X11: a run returns a pipeline exactly when the definition declares its
    four keys, every entry of the components sequence is a one-key mapping
    with the three sections from which the factory makes a task, every
    entry of the inputs sequence is a name with a value on the command line,
    and every entry of the outputs sequence is a string. *)
Theorem build_pipeline_returns_iff (self : Builder) (bad_yaml verbose : bool) :
  (∃ p : pipeline.Pipeline Task,
     outcome (build_pipeline self bad_yaml verbose) = inr p)
  ↔ ∃ (pname comps ins outs : tree) (ts : list Task)
      (cs : list consumable.Consumable) (names : list string),
      declared self bad_yaml "name" = inr pname
      ∧ declared self bad_yaml "components" = inr comps
      ∧ declared self bad_yaml "inputs" = inr ins
      ∧ declared self bad_yaml "outputs" = inr outs
      ∧ Forall2 (spawned_from bad_yaml) (iter comps) ts
      ∧ Forall2 (supplied self) (iter ins) cs
      ∧ iter outs = map Str names.
Proof.
  split.
  - intros [p Hp]. apply (returned_conditions self bad_yaml verbose p Hp).
  - intros (pname & comps & ins & outs & ts & cs & names
            & Hn & Hcs & Hi & Ho & Hts & Hsup & Hnames).
    destruct (fill_returns self bad_yaml pname comps ins outs ts cs names)
      as (calls & p & _ & Hfill & _); try done.
    exists p. rewrite (build_pipeline_fill _ _ _ pname comps ins outs) by done.
    by rewrite Hfill.
Qed.

(** X12: when a run returns a pipeline, what it did is, in this order: the
    announcement (if verbose), one call of the factory for each entry of the
    components sequence, with the entry's key as the name and its sections
    as keyword arguments, then one Consumable for each entry of the inputs
    sequence; nothing precedes, follows or comes in between. *)
Theorem returned_run_effects (self : Builder) (bad_yaml verbose : bool)
    (p : pipeline.Pipeline Task) :
  outcome (build_pipeline self bad_yaml verbose) = inr p →
  ∃ (comps ins : tree) (calls : list event) (cs : list consumable.Consumable),
    declared self bad_yaml "components" = inr comps
    ∧ declared self bad_yaml "inputs" = inr ins
    ∧ Forall2 (called_for bad_yaml) (iter comps) calls
    ∧ Forall2 (supplied self) (iter ins) cs
    ∧ log (build_pipeline self bad_yaml verbose)
      = announcement verbose ++ calls ++ map Constructed cs.
Proof.
  intros Hp.
  destruct (returned_conditions self bad_yaml verbose p Hp)
    as (pname & comps & ins & outs & ts & cs & names
        & Hn & Hcs & Hi & Ho & Hts & Hsup & Hnames).
  destruct (fill_returns self bad_yaml pname comps ins outs ts cs names)
    as (calls & p' & Hcalls & Hfill & _); try done.
  exists comps, ins, calls, cs. split_and!; try done.
  rewrite (build_pipeline_fill _ _ _ pname comps ins outs) by done.
  by rewrite Hfill.
Qed.

Lemma spawn_events (l : list event) :
  Forall (λ ev, is_spawn ev = true) l →
  ∃ calls : list (string * list (string * tree)),
    l = map (λ c, Spawned c.1 c.2) calls.
Proof.
  induction 1 as [|ev l Hev _ [calls ->]]; [by exists []|].
  destruct ev as [|n kw| |]; try discriminate Hev. by exists ((n, kw) :: calls).
Qed.

Lemma construct_events (P : consumable.Consumable → Prop) (l : list event) :
  Forall (λ ev, ∃ c, ev = Constructed c ∧ P c) l →
  ∃ cs : list consumable.Consumable, l = map Constructed cs.
Proof.
  induction 1 as [|ev l (c & -> & _) _ [cs ->]]; [by exists []|].
  by exists (c :: cs).
Qed.

Lemma outputs_loop_silent (outputs : list tree) (p : pipeline.Pipeline Task) :
  log (for_each outputs add_pipeline_output p) = [].
Proof.
  revert p. induction outputs as [|o outputs IH]; intros p; [reflexivity|].
  cbn [for_each]. rewrite bind_log_outcome.
  destruct (outcome (add_pipeline_output o p)); cbn [log fst];
    rewrite add_pipeline_output_log; [reflexivity|apply IH].
Qed.

(** X14: whatever its outcome, a run does things in one order: it prints
    its announcement (if verbose), then calls the task factory some number
    of times, then constructs Consumables; no Consumable is constructed
    before the last call of the factory, and nothing is printed after the
    announcement. *)
Theorem effects_in_order (self : Builder) (bad_yaml verbose : bool) :
  ∃ (calls : list (string * list (string * tree)))
    (cs : list consumable.Consumable),
    log (build_pipeline self bad_yaml verbose)
    = announcement verbose
      ++ map (λ c, Spawned c.1 c.2) calls ++ map Constructed cs.
Proof.
  unfold pipeline_builder.build_pipeline. rewrite announce_bind. cbn [log fst].
  enough (∀ k : M (pipeline.Pipeline Task),
            (∃ calls cs, log k = map (λ c, Spawned c.1 c.2) calls ++ map Constructed cs) →
            ∃ calls cs, announcement verbose ++ log k
                        = announcement verbose
                          ++ map (λ c, Spawned c.1 c.2) calls ++ map Constructed cs)
    as Hshape.
  { apply Hshape. clear Hshape. rewrite lift_bind.
    destruct (pipeline_builder.pipeline_content_of _ self bad_yaml) as [e|content];
      [by exists [], []|].
    rewrite lift_bind. destruct (keys content) as [e|ks]; [by exists [], []|].
    destruct (negb _); [by exists [], []|].
    rewrite lift_bind. destruct (getitem content "name") as [e|pname];
      [by exists [], []|].
    rewrite lift_bind. destruct (getitem content "components") as [e|comps];
      [by exists [], []|].
    rewrite bind_log_outcome.
    destruct (spawn_events
                (log (for_each (iter comps) (add_component bad_yaml)
                        (pipeline.__init__ pname)))) as [calls Hcalls].
    { apply log_for_each. intros c q. apply add_component_log. }
    rewrite Hcalls.
    destruct (outcome (for_each (iter comps) (add_component bad_yaml) _))
      as [e|p1]; cbn [log fst].
    { exists calls, []. by rewrite app_nil_r. }
    rewrite lift_bind. destruct (getitem content "inputs") as [e|ins].
    { exists calls, []. reflexivity. }
    rewrite bind_log_outcome.
    destruct (construct_events (λ _, True)
                (log (for_each (iter ins) (add_pipeline_input self) p1)))
      as [cs Hcs].
    { apply log_for_each. intros i q.
      eapply Forall_impl; [apply add_pipeline_input_log|].
      intros ev (c & -> & _). by exists c. }
    rewrite Hcs.
    destruct (outcome (for_each (iter ins) (add_pipeline_input self) p1))
      as [e|p2]; cbn [log fst].
    { by exists calls, cs. }
    rewrite lift_bind. destruct (getitem content "outputs") as [e|outs].
    { exists calls, cs. cbn [log fst]. by rewrite app_nil_r. }
    rewrite bind_ret, outputs_loop_silent. exists calls, cs. by rewrite app_nil_r. }
  intros k (calls & cs & ->). by exists calls, cs.
Qed.

(** X10: a run reads the command line inputs at the names the definition
    declares and nowhere else: two builders with the same definition whose
    inputs agree on every declared name give the same run. *)
Theorem undeclared_inputs_ignored (self other : Builder) (bad_yaml verbose : bool) :
  parsed_yaml self = parsed_yaml other →
  (∀ (ins : tree) (k : string),
     declared self bad_yaml "inputs" = inr ins →
     Str k ∈ iter ins →
     command_line_inputs self !! k = command_line_inputs other !! k) →
  build_pipeline self bad_yaml verbose = build_pipeline other bad_yaml verbose.
Proof.
  intros Hy Hcli.
  assert (pipeline_builder.pipeline_content_of list_of_dicts_to_dict other bad_yaml
          = pipeline_builder.pipeline_content_of list_of_dicts_to_dict self bad_yaml)
    as Hpc by (unfold pipeline_builder.pipeline_content_of; by rewrite Hy).
  unfold pipeline_builder.build_pipeline. rewrite !announce_bind, Hpc.
  match goal with
  | |- (_ ++ log ?k1, _) = (_ ++ log ?k2, _) =>
      assert (k1 = k2) as ->; [|reflexivity]
  end.
  apply bind_ext. intros content Hc. unfold outcome, lift in Hc. cbn [snd] in Hc.
  apply bind_ext. intros ks _. destruct (negb _); [reflexivity|].
  apply bind_ext. intros pname _. apply bind_ext. intros comps _.
  apply bind_ext. intros p1 _.
  apply bind_ext. intros ins Hi. unfold outcome, lift in Hi. cbn [snd] in Hi.
  rewrite (for_each_ext (iter ins) (add_pipeline_input self)
             (add_pipeline_input other)); [reflexivity|].
  intros x q Hx. destruct x as [k|l|m]; try reflexivity.
  unfold add_pipeline_input. simpl hashable. rewrite !lift_bind.
  rewrite (Hcli ins k); [reflexivity| |done].
  unfold pipeline_builder.declared. rewrite Hc. exact Hi.
Qed.

(** X17: when the components sequence reaches, after components that yield
    tasks, an entry of length one that is not a mapping (a one-element list,
    a one-character string), the length check lets it through and the run
    ends with the interpreter's [AttributeError] for the missing [keys],
    not with a [PipelineParsingError]. *)
Theorem component_not_mapping (self : Builder) (bad_yaml verbose : bool)
    (pname comps ins outs : tree) (pre post : list tree) (c : tree)
    (ts : list Task) :
  declared self bad_yaml "name" = inr pname →
  declared self bad_yaml "components" = inr comps →
  declared self bad_yaml "inputs" = inr ins →
  declared self bad_yaml "outputs" = inr outs →
  iter comps = pre ++ c :: post →
  Forall2 (spawned_from bad_yaml) pre ts →
  len c = 1 →
  (∀ m, c ≠ Map m) →
  ∃ calls : list event,
    Forall2 (called_for bad_yaml) pre calls
    ∧ build_pipeline self bad_yaml verbose
      = (announcement verbose ++ calls,
         inl (AttributeError
                ("'" +:+ type_name c +:+ "' object has no attribute 'keys'"))).
Proof.
  intros Hn Hcs Hi Ho Hiter Hpre Hlen Hnot.
  destruct (fill_component_error self bad_yaml pname comps ins outs pre post c ts []
              (AttributeError
                 ("'" +:+ type_name c +:+ "' object has no attribute 'keys'"))
              Hiter Hpre)
    as (calls & Hcalls & Hfill).
  { intros p. by apply add_component_not_mapping. }
  exists calls. split; [done|].
  rewrite (build_pipeline_fill _ _ _ pname comps ins outs) by done.
  rewrite Hfill. simpl. by rewrite app_nil_r.
Qed.

(** X18: when the components sequence reaches, after components that yield
    tasks, a one-key mapping whose value is not a mapping (such as
    [clean: noop]), the run ends with the interpreter's [AttributeError] for
    the missing [keys], without calling the factory for it. *)
Theorem component_sections_not_mapping (self : Builder) (bad_yaml verbose : bool)
    (pname comps ins outs : tree) (pre post : list tree) (ts : list Task)
    (c_name : string) (v sections : tree) :
  declared self bad_yaml "name" = inr pname →
  declared self bad_yaml "components" = inr comps →
  declared self bad_yaml "inputs" = inr ins →
  declared self bad_yaml "outputs" = inr outs →
  iter comps = pre ++ Map [(c_name, v)] :: post →
  Forall2 (spawned_from bad_yaml) pre ts →
  (if bad_yaml then list_of_dicts_to_dict v else inr v) = inr sections →
  (∀ d, sections ≠ Map d) →
  ∃ calls : list event,
    Forall2 (called_for bad_yaml) pre calls
    ∧ build_pipeline self bad_yaml verbose
      = (announcement verbose ++ calls,
         inl (AttributeError
                ("'" +:+ type_name sections
                 +:+ "' object has no attribute 'keys'"))).
Proof.
  intros Hn Hcs Hi Ho Hiter Hpre Hd Hnot.
  destruct (fill_component_error self bad_yaml pname comps ins outs pre post
              (Map [(c_name, v)]) ts []
              (AttributeError
                 ("'" +:+ type_name sections
                  +:+ "' object has no attribute 'keys'"))
              Hiter Hpre)
    as (calls & Hcalls & Hfill).
  { intros p. rewrite add_component_single, Hd, lift_bind.
    destruct sections as [s|l|d]; [| |by destruct (Hnot d)];
      by rewrite lift_bind. }
  exists calls. split; [done|].
  rewrite (build_pipeline_fill _ _ _ pname comps ins outs) by done.
  rewrite Hfill. simpl. by rewrite app_nil_r.
Qed.

(** X19: with [bad_yaml], an exception of [list_of_dicts_to_dict] on the
    [pipeline] entry is not caught: the run ends with that very exception,
    after nothing but the announcement. *)
Theorem conversion_error_propagates (self : Builder) (verbose : bool)
    (m : list (string * tree)) (entry : tree) (e : exn) :
  parsed_yaml self = Map m →
  lookup "pipeline" m = Some entry →
  truthy entry = true →
  list_of_dicts_to_dict entry = inl e →
  build_pipeline self true verbose = (announcement verbose, inl e).
Proof.
  intros Hm Hentry Htruthy He. apply build_pipeline_no_content.
  unfold pipeline_builder.pipeline_content_of. rewrite Hm. simpl.
  by rewrite Hentry; simpl; rewrite Htruthy.
Qed.

End loops_facts.

(** ** Full names as keys *)

Section full_name_facts.
Import py consumable names.

Lemma dotted_not_dotless (a b : string) : dotless (a +:+ "." +:+ b) = false.
Proof.
  induction a as [|c a IH]; [reflexivity|]. simpl. rewrite IH. apply andb_false_r.
Qed.

Lemma qualified_inj (p1 p2 n1 n2 : string) :
  dotless n1 = true → dotless n2 = true →
  p1 +:+ "." +:+ n1 = p2 +:+ "." +:+ n2 → p1 = p2 ∧ n1 = n2.
Proof.
  intros H1 H2. revert p2.
  induction p1 as [|c p1 IH]; intros [|c' p2] Heq.
  - injection Heq as Hrest. by subst.
  - injection Heq as Hc Hrest. change ("" +:+ n1) with n1 in Hrest. subst n1.
    by rewrite (dotted_not_dotless p2 n2) in H1.
  - injection Heq as Hc Hrest. change ("" +:+ n2) with n2 in Hrest. subst n2.
    by rewrite (dotted_not_dotless p1 n1) in H2.
  - injection Heq as Hc Hrest. subst c'. by destruct (IH _ Hrest) as [-> ->].
Qed.

Lemma full_name_bare (v n : string) : full_name (mkConsumable v n "") = n.
Proof. reflexivity. Qed.

Lemma full_name_qualified (v n p : string) :
  p ≠ "" → full_name (mkConsumable v n p) = p +:+ "." +:+ n.
Proof. intros Hp. unfold full_name. simpl parent_task_name. by destruct p. Qed.

(** X15: among Consumables whose names hold no dot, the full name is a key:
    two of them with the same full name have the same parent task name and
    the same name. *)
Theorem full_name_unique_for_dotless_names (c1 c2 : Consumable) :
  dotless (name c1) = true →
  dotless (name c2) = true →
  full_name c1 = full_name c2 →
  parent_task_name c1 = parent_task_name c2 ∧ name c1 = name c2.
Proof.
  destruct c1 as [v1 n1 p1], c2 as [v2 n2 p2]. simpl name. simpl parent_task_name.
  intros H1 H2.
  destruct (decide (p1 = "")) as [->|Hp1], (decide (p2 = "")) as [->|Hp2];
    rewrite ?full_name_bare, ?full_name_qualified by done.
  - by intros ->.
  - intros ->. by rewrite dotted_not_dotless in H1.
  - intros <-. by rewrite dotted_not_dotless in H2.
  - by apply qualified_inj.
Qed.

Lemma full_name_unique_for_dotless_names_witness :
  parent_task_name (mkConsumable "x" "model" "train")
  = parent_task_name (mkConsumable "y" "model" "train")
  ∧ name (mkConsumable "x" "model" "train") = name (mkConsumable "y" "model" "train").
Proof.
  apply (full_name_unique_for_dotless_names
           (mkConsumable "x" "model" "train") (mkConsumable "y" "model" "train"));
    reflexivity.
Defined.

(** X16: with dots in names the full name is no key: a Consumable produced
    by a task has the full name of a different, external Consumable whose
    name is the dotted one. *)
Theorem full_name_collision (v n p : string) :
  p ≠ "" →
  full_name (mkConsumable v n p) = full_name (mkConsumable v (p +:+ "." +:+ n) "")
  ∧ mkConsumable v n p ≠ mkConsumable v (p +:+ "." +:+ n) "".
Proof.
  intros Hp. rewrite full_name_bare, full_name_qualified by done.
  split; [reflexivity|]. intros [= _ Hq]. by destruct Hp.
Qed.

Lemma full_name_collision_witness :
  full_name (mkConsumable "x" "clean_data" "clean")
  = full_name (mkConsumable "x" "clean.clean_data" "")
  ∧ mkConsumable "x" "clean_data" "clean" ≠ mkConsumable "x" "clean.clean_data" "".
Proof.
  apply (full_name_collision "x" "clean_data" "clean"). discriminate.
Defined.

End full_name_facts.

(** ** The further properties at sample definitions *)

Section more_samples.
Import py effects pipeline_builder loops.

#[local] Abbreviation build :=
  (build_pipeline pipeline_task.spawn_task (λ t, inr t)).
#[local] Abbreviation builder t := (mkBuilder t more_examples.supplied_raw).

Lemma missing_definition_message_witness :
  build (builder more_examples.empty_entry) true true
  = (announcement true, inl (PipelineParsingError "Missing pipeline definition.")).
Proof.
  apply (missing_definition_message pipeline_task.spawn_task (λ t, inr t)
           (builder more_examples.empty_entry) true true [("pipeline", Seq [])]).
  - reflexivity.
  - right. exists (Seq []). split; reflexivity.
Defined.

Lemma missing_key_message_witness :
  build (builder examples.incomplete) false false
  = (announcement false,
     inl (PipelineParsingError "Pipeline missing key attributes.")).
Proof.
  apply (missing_key_message pipeline_task.spawn_task (λ t, inr t)
           (builder examples.incomplete) false false
           [("pipeline",
             Map [("name", Str "demo"); ("inputs", Seq []); ("outputs", Seq [])])]
           [("name", Str "demo"); ("inputs", Seq []); ("outputs", Seq [])]
           (Map [("name", Str "demo"); ("inputs", Seq []); ("outputs", Seq [])])
           "components").
  - reflexivity.
  - reflexivity.
  - reflexivity.
  - reflexivity.
  - repeat constructor.
  - apply (bool_decide_unpack _). vm_compute. exact I.
Defined.

Lemma definition_not_mapping_witness :
  build (builder more_examples.top_level_list) false true
  = (announcement true,
     inl (AttributeError "'list' object has no attribute 'get'")).
Proof.
  apply (definition_not_mapping pipeline_task.spawn_task (λ t, inr t)
           (builder more_examples.top_level_list) false true).
  intros m. discriminate.
Defined.

Lemma content_not_mapping_witness :
  build (builder more_examples.string_entry) false true
  = (announcement true,
     inl (AttributeError "'str' object has no attribute 'keys'")).
Proof.
  apply (content_not_mapping pipeline_task.spawn_task (λ t, inr t)
           (builder more_examples.string_entry) true
           [("pipeline", Str "demo")] (Str "demo")).
  - reflexivity.
  - reflexivity.
  - reflexivity.
  - intros c. discriminate.
Defined.

Lemma clean_spawned :
  Forall2 (spawned_from pipeline_task.spawn_task (λ t, inr t) false)
    [more_examples.clean_component] [examples.clean].
Proof.
  repeat constructor. eexists _, _, _. split_and!; reflexivity.
Defined.

Lemma malformed_component_rejected_witness :
  ∃ calls : list event,
    Forall2 (called_for (λ t, inr t) false) [more_examples.clean_component] calls
    ∧ build (builder more_examples.empty_component) false false
      = (announcement false ++ calls,
         inl (PipelineParsingError component_root_message)).
Proof.
  apply (malformed_component_rejected pipeline_task.spawn_task (λ t, inr t)
           (builder more_examples.empty_component) false false
           (Str "demo") (Seq [more_examples.clean_component; Map []])
           (Seq [Str "raw"]) (Seq [])
           [more_examples.clean_component] [] (Map []) [examples.clean]).
  - reflexivity.
  - reflexivity.
  - reflexivity.
  - reflexivity.
  - reflexivity.
  - exact clean_spawned.
  - simpl. discriminate.
Defined.

Lemma incomplete_component_named_witness :
  ∃ calls : list event,
    Forall2 (called_for (λ t, inr t) false) [more_examples.clean_component] calls
    ∧ build (builder more_examples.missing_sections) false false
      = (announcement false ++ calls,
         inl (PipelineParsingError
                ("Component " +:+ "train" +:+ " missing one of the key arguments!"))).
Proof.
  apply (incomplete_component_named pipeline_task.spawn_task (λ t, inr t)
           (builder more_examples.missing_sections) false false
           (Str "demo")
           (Seq [more_examples.clean_component;
                 Map [("train", more_examples.train_sections)]])
           (Seq [Str "raw"]) (Seq [])
           [more_examples.clean_component] [] [examples.clean]
           "train" "outputs" more_examples.train_sections [("runner", Str "noop")]).
  - reflexivity.
  - reflexivity.
  - reflexivity.
  - reflexivity.
  - reflexivity.
  - exact clean_spawned.
  - reflexivity.
  - repeat constructor.
  - apply (bool_decide_unpack _). vm_compute. exact I.
Defined.

Lemma factory_error_propagates_witness :
  ∃ calls : list event,
    Forall2 (called_for (λ t, inr t) false) [more_examples.clean_component] calls
    ∧ build (builder more_examples.no_outputs) false false
      = (announcement false ++ calls
         ++ [Spawned "train"
               [("runner", Str "noop"); ("inputs", Map []); ("outputs", Seq [])]],
         inl (InvalidTaskDefinition "outputs")).
Proof.
  apply (factory_error_propagates pipeline_task.spawn_task (λ t, inr t)
           (builder more_examples.no_outputs) false false
           (Str "demo")
           (Seq [more_examples.clean_component;
                 examples.component "train" "noop" [] []])
           (Seq [Str "raw"]) (Seq [])
           [more_examples.clean_component] [] [examples.clean]
           "train"
           (Map [("runner", Str "noop"); ("inputs", Map []); ("outputs", Seq [])])
           [("runner", Str "noop"); ("inputs", Map []); ("outputs", Seq [])]
           (InvalidTaskDefinition "outputs")).
  - reflexivity.
  - reflexivity.
  - reflexivity.
  - reflexivity.
  - reflexivity.
  - exact clean_spawned.
  - reflexivity.
  - reflexivity.
  - reflexivity.
Defined.

Lemma non_name_input_type_error_witness :
  ∃ (calls : list event) (cs : list consumable.Consumable),
    Forall2 (called_for (λ t, inr t) false) [more_examples.clean_component] calls
    ∧ Forall2 (supplied (builder more_examples.nested_input)) [Str "raw"] cs
    ∧ build (builder more_examples.nested_input) false false
      = (announcement false ++ calls ++ map Constructed cs,
         inl (TypeError "unhashable type: 'list'")).
Proof.
  apply (non_name_input_type_error pipeline_task.spawn_task (λ t, inr t)
           (builder more_examples.nested_input) false false
           (Str "demo") (Seq [more_examples.clean_component])
           (Seq [Str "raw"; Seq [Str "extra"]]) (Seq [])
           [examples.clean] ["raw"] (Seq [Str "extra"]) []).
  - reflexivity.
  - reflexivity.
  - reflexivity.
  - reflexivity.
  - exact clean_spawned.
  - reflexivity.
  - repeat constructor. by exists "x".
  - intros s. discriminate.
Defined.

Lemma component_not_mapping_witness :
  ∃ calls : list event,
    Forall2 (called_for (λ t, inr t) false) [more_examples.clean_component] calls
    ∧ build (builder more_examples.string_component) false false
      = (announcement false ++ calls,
         inl (AttributeError "'str' object has no attribute 'keys'")).
Proof.
  apply (component_not_mapping pipeline_task.spawn_task (λ t, inr t)
           (builder more_examples.string_component) false false
           (Str "demo") (Seq [more_examples.clean_component; Str "t"])
           (Seq [Str "raw"]) (Seq [])
           [more_examples.clean_component] [] (Str "t") [examples.clean]).
  - reflexivity.
  - reflexivity.
  - reflexivity.
  - reflexivity.
  - reflexivity.
  - exact clean_spawned.
  - reflexivity.
  - intros m. discriminate.
Defined.

Lemma component_sections_not_mapping_witness :
  ∃ calls : list event,
    Forall2 (called_for (λ t, inr t) false) [more_examples.clean_component] calls
    ∧ build (builder more_examples.runner_only) false false
      = (announcement false ++ calls,
         inl (AttributeError "'str' object has no attribute 'keys'")).
Proof.
  apply (component_sections_not_mapping pipeline_task.spawn_task (λ t, inr t)
           (builder more_examples.runner_only) false false
           (Str "demo")
           (Seq [more_examples.clean_component; Map [("train", Str "noop")]])
           (Seq [Str "raw"]) (Seq [])
           [more_examples.clean_component] [] [examples.clean]
           "train" (Str "noop") (Str "noop")).
  - reflexivity.
  - reflexivity.
  - reflexivity.
  - reflexivity.
  - reflexivity.
  - exact clean_spawned.
  - reflexivity.
  - intros d. discriminate.
Defined.

Lemma conversion_error_propagates_witness :
  pipeline_builder.build_pipeline pipeline_task.spawn_task
    (λ _, inl (TypeError "not a list of dicts"))
    (builder examples.scenario) true true
  = (announcement true, inl (TypeError "not a list of dicts")).
Proof.
  apply (conversion_error_propagates pipeline_task.spawn_task
           (λ _, inl (TypeError "not a list of dicts"))
           (builder examples.scenario) true
           [("pipeline",
             Map [("name", Str "demo");
                  ("inputs", Seq [Str "raw"]);
                  ("outputs", Seq [Str "train.model"]);
                  ("components",
                   Seq [examples.component "clean" "noop" [("raw", "raw")]
                          ["clean_data"];
                        examples.component "train" "noop"
                          [("data", "clean.clean_data")] ["model"]])])]
           (Map [("name", Str "demo");
                 ("inputs", Seq [Str "raw"]);
                 ("outputs", Seq [Str "train.model"]);
                 ("components",
                  Seq [examples.component "clean" "noop" [("raw", "raw")]
                         ["clean_data"];
                       examples.component "train" "noop"
                         [("data", "clean.clean_data")] ["model"]])])
           (TypeError "not a list of dicts")).
  - reflexivity.
  - reflexivity.
  - reflexivity.
  - reflexivity.
Defined.

Lemma returned_run_effects_witness :
  ∃ (comps ins : tree) (calls : list event) (cs : list consumable.Consumable),
    declared (λ t, inr t) examples.scenario_builder false "components" = inr comps
    ∧ declared (λ t, inr t) examples.scenario_builder false "inputs" = inr ins
    ∧ Forall2 (called_for (λ t, inr t) false) (iter comps) calls
    ∧ Forall2 (supplied examples.scenario_builder) (iter ins) cs
    ∧ log (build examples.scenario_builder false true)
      = announcement true ++ calls ++ map Constructed cs.
Proof.
  apply (returned_run_effects pipeline_task.spawn_task (λ t, inr t)
           examples.scenario_builder false true examples.scenario_pipeline).
  vm_compute. reflexivity.
Defined.

Lemma undeclared_inputs_ignored_witness :
  build examples.scenario_builder false true
  = build (pass_command_line_inputs {["unused" := "y"]} examples.scenario_builder)
      false true.
Proof.
  apply (undeclared_inputs_ignored pipeline_task.spawn_task (λ t, inr t)
           examples.scenario_builder
           (pass_command_line_inputs {["unused" := "y"]} examples.scenario_builder)
           false true).
  - reflexivity.
  - intros ins k [= <-] Hk. apply list_elem_of_singleton in Hk as [= ->].
    vm_compute. reflexivity.
Defined.

End more_samples.

(** * The declared inputs and the base level check, revisited *)

Section declared_inputs_facts.
Import py effects pipeline_builder.
Context {Task : Type}.
Variable spawn_task : string → list (string * tree) → exn + Task.
Variable list_of_dicts_to_dict : tree → exn + tree.

#[local] Abbreviation add_component :=
  (add_component spawn_task list_of_dicts_to_dict).
#[local] Abbreviation build_pipeline :=
  (build_pipeline spawn_task list_of_dicts_to_dict).
#[local] Abbreviation declared := (declared list_of_dicts_to_dict).

Lemma constructed_announcement (verbose : bool) :
  constructed (announcement verbose) = [].
Proof. by destruct verbose. Qed.

Lemma constructed_spawns (l : list event) :
  Forall (λ ev, is_spawn ev = true) l → constructed l = [].
Proof.
  induction 1 as [|ev l Hev _ IH]; [reflexivity|]. by destruct ev.
Qed.

(** Whatever its outcome, the loop over the inputs has constructed the
    Consumables of the entries it went through, in order. *)
Lemma inputs_loop_prefix (self : Builder) (inputs : list tree)
    (p : pipeline.Pipeline Task) :
  ∃ n : nat,
    Forall2 (supplied self) (take n inputs)
      (constructed (log (for_each inputs (add_pipeline_input self) p))).
Proof.
  revert p. induction inputs as [|i inputs IH]; intros p; [by exists 0|].
  cbn [for_each]. rewrite bind_log_outcome.
  destruct i as [k|l|m]; try (exists 0; constructor).
  destruct (command_line_inputs self !! k) as [v|] eqn:Hk.
  - rewrite (add_pipeline_input_present _ _ v) by done. cbn [log outcome fst snd].
    destruct (IH (pipeline.add_input (consumable.mkConsumable v k "") p))
      as [n Hn].
    exists (S n). simpl. constructor; [|done]. by exists k, v.
  - rewrite add_pipeline_input_absent by done. exists 0. constructor.
Qed.

(** What a run has constructed is what its loop over the declared inputs
    has constructed. *)
Lemma build_pipeline_constructed (self : Builder) (bad_yaml verbose : bool) :
  constructed (log (build_pipeline self bad_yaml verbose)) = []
  ∨ ∃ (ins : tree) (p1 : pipeline.Pipeline Task),
      declared self bad_yaml "inputs" = inr ins
      ∧ constructed (log (build_pipeline self bad_yaml verbose))
        = constructed (log (for_each (iter ins) (add_pipeline_input self) p1)).
Proof.
  unfold pipeline_builder.build_pipeline, pipeline_builder.declared.
  rewrite announce_bind. cbn [log fst].
  rewrite constructed_app, constructed_announcement. cbn [app].
  rewrite lift_bind.
  destruct (pipeline_builder.pipeline_content_of _ self bad_yaml) as [e|content];
    [by left|].
  rewrite lift_bind. destruct (keys content) as [e|ks]; [by left|].
  destruct (negb _); [by left|].
  rewrite lift_bind. destruct (getitem content "name") as [e|pname]; [by left|].
  rewrite lift_bind.
  destruct (getitem content "components") as [e|comps]; [by left|].
  rewrite bind_log_outcome.
  assert (constructed (log (for_each (iter comps) (add_component bad_yaml)
                              (pipeline.__init__ pname))) = []) as Hspawns.
  { apply constructed_spawns, log_for_each. intros c q. apply add_component_log. }
  destruct (outcome (for_each (iter comps) (add_component bad_yaml) _))
    as [e|p1]; cbn [log fst]; [by left|].
  rewrite constructed_app, Hspawns. cbn [app]. rewrite lift_bind.
  destruct (getitem content "inputs") as [e|ins] eqn:Hi; [by left|].
  right. exists ins, p1. split; [exact Hi|].
  rewrite bind_log_outcome.
  destruct (outcome (for_each (iter ins) (add_pipeline_input self) p1))
    as [e|p2]; cbn [log fst]; [reflexivity|].
  rewrite lift_bind. destruct (getitem content "outputs") as [e|outs].
  { cbn [log fst]. by rewrite app_nil_r. }
  rewrite bind_ret, outputs_loop_silent. by rewrite app_nil_r.
Qed.

Lemma supplied_is_external (self : Builder) (i : tree) (c : consumable.Consumable) :
  supplied self i c →
  consumable.parent_task_name c = ""
  ∧ i = Str (consumable.full_name c)
  ∧ i = Str (consumable.name c)
  ∧ command_line_inputs self !! consumable.name c = Some (consumable.content c).
Proof. by intros (k & v & -> & Hk & ->). Qed.

Lemma supplied_of_entry (self : Builder) (inputs : list tree)
    (cs : list consumable.Consumable) (i : tree) :
  Forall2 (supplied self) inputs cs → i ∈ inputs → ∃ c, c ∈ cs ∧ supplied self i c.
Proof.
  induction 1 as [|i' c inputs' cs' Hc _ IH]; intros Hin.
  - by apply elem_of_nil in Hin.
  - apply elem_of_cons in Hin as [->|Hin].
    + exists c. split; [left|done].
    + destruct (IH Hin) as (c' & ? & ?). exists c'. split; [by right|done].
Qed.

(** C2: the Consumables a run constructs are those of the declared inputs,
    one for one and in the order of the [inputs] sequence: the n-th
    Consumable constructed is built for the n-th declared input, with an
    empty parent task name, so that its full name is that input's bare name,
    and with the value supplied under that name.  A run that raises has
    constructed them for the first entries of the sequence; a run that
    returns has constructed them for all, and the external inputs of the
    returned pipeline are exactly these Consumables, each filed under the
    declared name. *)
Theorem declared_inputs_are_external (self : Builder) (bad_yaml verbose : bool) :
  (constructed (log (build_pipeline self bad_yaml verbose)) = []
   ∨ ∃ (ins : tree) (n : nat),
       declared self bad_yaml "inputs" = inr ins
       ∧ Forall2 (λ i c, consumable.parent_task_name c = ""
                         ∧ i = Str (consumable.full_name c)
                         ∧ i = Str (consumable.name c)
                         ∧ command_line_inputs self !! consumable.name c
                           = Some (consumable.content c))
           (take n (iter ins))
           (constructed (log (build_pipeline self bad_yaml verbose))))
  ∧ (∀ p : pipeline.Pipeline Task,
       outcome (build_pipeline self bad_yaml verbose) = inr p →
       ∃ ins : tree,
         declared self bad_yaml "inputs" = inr ins
         ∧ Forall2 (λ i c, consumable.parent_task_name c = ""
                           ∧ i = Str (consumable.full_name c)
                           ∧ i = Str (consumable.name c)
                           ∧ command_line_inputs self !! consumable.name c
                             = Some (consumable.content c))
             (iter ins)
             (constructed (log (build_pipeline self bad_yaml verbose)))
         ∧ (∀ k c, pipeline.external_inputs p !! k = Some c →
                   Str k ∈ iter ins
                   ∧ c ∈ constructed (log (build_pipeline self bad_yaml verbose))
                   ∧ consumable.parent_task_name c = ""
                   ∧ consumable.full_name c = k)
         ∧ (∀ k, Str k ∈ iter ins →
                 ∃ c, pipeline.external_inputs p !! k = Some c
                      ∧ consumable.full_name c = k)).
Proof.
  split.
  - destruct (build_pipeline_constructed self bad_yaml verbose)
      as [Hnone|(ins & p1 & Hins & Hlog)]; [by left|].
    right. destruct (inputs_loop_prefix self (iter ins) p1) as [n Hn].
    exists ins, n. split; [done|]. rewrite Hlog.
    eapply Forall2_impl; [exact Hn|]. intros i c. apply supplied_is_external.
  - intros p. destruct (build_pipeline self bad_yaml verbose) as [l r] eqn:Hrun.
    cbn [outcome log fst snd]. intros ->.
    apply (build_pipeline_success spawn_task list_of_dicts_to_dict) in Hrun
      as (pname & comps & ins & outs & l1 & l2 & l3 & p1 & p2
          & _ & _ & Hi & _ & Hl1 & Hl2 & Hl3 & ->).
    apply components_loop in Hl1 as (ts & _ & _ & _ & He1 & _ & _ & Hco1).
    apply inputs_loop in Hl2 as (cs & Hall & -> & _ & _ & _ & He2).
    apply outputs_loop in Hl3 as (-> & _ & _ & He3 & _).
    assert (constructed (announcement verbose ++ l1 ++ map Constructed cs ++ [])
            = cs) as Hcs.
    { rewrite !constructed_app, constructed_announcement, Hco1, constructed_map.
      simpl. by rewrite app_nil_r. }
    assert (∀ k c, pipeline.external_inputs p !! k = Some c
                   ↔ c ∈ cs ∧ consumable.name c = k) as Hlookup.
    { intros k c. rewrite He3, He2, He1. simpl. rewrite with_inputs_lookup.
      - rewrite lookup_empty. split; [intros [?|[_ ?]]; done|by left].
      - intros c1 c2 (i1 & _ & H1)%(supplied_all _ _ _ _ Hall)
          (i2 & _ & H2)%(supplied_all _ _ _ _ Hall).
        by eapply supplied_functional. }
    exists ins. rewrite Hcs. split_and!; [done| | |].
    + eapply Forall2_impl; [exact Hall|]. intros i c. apply supplied_is_external.
    + intros k c [Hc Hname]%Hlookup.
      destruct (supplied_all _ _ _ _ Hall Hc) as (i & Hi' & Hsup).
      apply supplied_is_external in Hsup as (Hp & Hfull & Hn & _).
      assert (consumable.full_name c = k) as Hk by congruence.
      split_and!; try done. by rewrite <- Hk, <- Hfull.
    + intros k Hk. destruct (supplied_of_entry _ _ _ _ Hall Hk) as (c & Hc & Hsup).
      apply supplied_is_external in Hsup as (_ & Hfull & Hn & _).
      exists c. split; [|congruence]. apply Hlookup. split; [done|congruence].
Qed.

(** C3 at a definition whose [pipeline] entry is a list with none of the
    four keys, and at a definition that is itself a list, without
    [bad_yaml]: the first ends with the interpreter's [AttributeError] for
    the missing [keys], the second for the missing [get], where the
    specification has [PipelineParsingError]. *)
Theorem list_entry_attribute_error (inputs : gmap string string) (verbose : bool) :
  build_pipeline (mkBuilder more_examples.list_entry inputs) false verbose
  = (announcement verbose,
     inl (AttributeError "'list' object has no attribute 'keys'"))
  ∧ build_pipeline (mkBuilder more_examples.top_level_list inputs) false verbose
    = (announcement verbose,
       inl (AttributeError "'list' object has no attribute 'get'")).
Proof.
  split.
  - unfold pipeline_builder.build_pipeline.
    rewrite announce_bind, lift_bind. simpl. by rewrite app_nil_r.
  - by apply build_pipeline_no_content.
Qed.

End declared_inputs_facts.

Section declared_inputs_samples.
Import py effects pipeline_builder.

#[local] Abbreviation build :=
  (build_pipeline pipeline_task.spawn_task (λ t, inr t)).

Lemma declared_inputs_are_external_witness :
  (∃ (ins : tree) (n : nat),
     declared (λ t, inr t)
       (mkBuilder more_examples.two_inputs more_examples.supplied_first) false
       "inputs" = inr ins
     ∧ take n (iter ins) = [Str "raw"]
     ∧ constructed
         (log (build (mkBuilder more_examples.two_inputs more_examples.supplied_first)
                 false true))
       = [consumable.mkConsumable "x" "raw" ""])
  ∧ ∃ ins : tree,
      declared (λ t, inr t) examples.scenario_builder false "inputs" = inr ins
      ∧ Forall2 (λ i c, consumable.parent_task_name c = ""
                        ∧ i = Str (consumable.full_name c)
                        ∧ i = Str (consumable.name c)
                        ∧ command_line_inputs examples.scenario_builder
                          !! consumable.name c
                          = Some (consumable.content c))
          (iter ins)
          (constructed (log (build examples.scenario_builder false true)))
      ∧ (∀ k c, pipeline.external_inputs examples.scenario_pipeline !! k = Some c →
                Str k ∈ iter ins
                ∧ c ∈ constructed (log (build examples.scenario_builder false true))
                ∧ consumable.parent_task_name c = ""
                ∧ consumable.full_name c = k)
      ∧ (∀ k, Str k ∈ iter ins →
              ∃ c, pipeline.external_inputs examples.scenario_pipeline !! k = Some c
                   ∧ consumable.full_name c = k).
Proof.
  split.
  - exists (Seq [Str "raw"; Str "labels"]), 1. split_and!; reflexivity.
  - apply (proj2 (declared_inputs_are_external pipeline_task.spawn_task (λ t, inr t)
                    examples.scenario_builder false true)
             examples.scenario_pipeline).
    vm_compute. reflexivity.
Defined.

End declared_inputs_samples.
